(** * Calorie Burn Predictor & Fitness Tracker

    A shallow embedding of [app.py], the Streamlit front end of the
    calorie-burn predictor, and of the parts of its [backend] that the
    front end drives (the log book and the nutrition advisor).

    Numbers.  The integer widgets of the page (age, height, weight,
    duration, heart rate) yield Python [int]s and are embedded in [Z];
    a Python [float] expression is embedded as the exact rational [Q]
    it denotes, compared with [==], and, where a property depends on
    its rounding, a second time on the binary64 floats themselves (the
    modules [OnFloats] and [HeartRate]).  Python's true division raises
    [ZeroDivisionError] at a zero divisor, which the embedding shows as
    [None]. *)

From Stdlib Require Import ZArith QArith Qabs Lqa Lia List String Bool Sorted.
From Stdlib Require Floats Uint63.
Import ListNotations.
Local Open Scope Q_scope.

(** ** Python arithmetic on floats *)

Module Py.

(** [x / y]: [None] stands for [ZeroDivisionError]. *)
Definition truediv (x y : Q) : option Q :=
  if Qeq_bool y 0 then None else Some (x / y).

(** [x > y] *)
Definition gt (x y : Q) : bool := negb (Qle_bool x y).

(** [x < y] *)
Definition lt (x y : Q) : bool := negb (Qle_bool y x).

(** [x <= y] *)
Definition le (x y : Q) : bool := Qle_bool x y.

(** [min(x, y)] and [max(x, y)]: Python returns the first argument on a
    tie. *)
Definition min (x y : Q) : Q := if lt y x then y else x.
Definition max (x y : Q) : Q := if gt y x then y else x.

End Py.

(** ** Streamlit widgets

    A widget returns the value the browser holds for it, which Streamlit
    keeps inside the range the script declares; before the user touches
    the widget it returns the declared default.  [raw] is what the
    browser sent, [None] when the widget is untouched. *)

Module St.

Definition clamp (min_value max_value v : Z) : Z :=
  Z.max min_value (Z.min max_value v).

Definition clampf (min_value max_value v : Q) : Q :=
  Py.max min_value (Py.min max_value v).

(** [st.number_input(label, min_value, max_value, value)] on [int]s. *)
Definition number_input (min_value max_value value : Z) (raw : option Z) : Z :=
  match raw with
  | None => value
  | Some v => clamp min_value max_value v
  end.

(** [st.number_input] on [float]s. *)
Definition number_inputf (min_value max_value value : Q) (raw : option Q) : Q :=
  match raw with
  | None => value
  | Some v => clampf min_value max_value v
  end.

(** [st.slider(label, min_value, max_value, value)]. *)
Definition slider (min_value max_value value : Z) (raw : option Z) : Z :=
  number_input min_value max_value value raw.

(** [st.selectbox(label, options, index)]: the option at the chosen
    position, the one at [index] when the position is not one of the
    list. *)
Definition selectbox {A : Type} (options : list A) (index : nat) (dflt : A)
    (raw : option nat) : A :=
  match raw with
  | None => nth index options dflt
  | Some i => nth i options (nth index options dflt)
  end.

End St.

(** ** The page: body metrics and calorie guidelines *)

(** [weight / ((height / 100) ** 2)], the expression of the sidebar, at
    any weight: its exact value.  The page takes it on floats
    ([OnFloats.bmi_of]), within rounding of this value. *)
Definition bmi_of (weight : Q) (height : Z) : option Q :=
  Py.truediv weight ((inject_Z height / 100) ^ 2).

(** [bmi = weight / ((height / 100) ** 2)] (sidebar), at the [int]
    weight of the profile. *)
Definition bmi (weight height : Z) : option Q :=
  bmi_of (inject_Z weight) height.

(** [target_weight = target_bmi * ((height / 100) ** 2)] (tab 5): its
    exact value; on floats it is [OnFloats.target_weight]. *)
Definition target_weight (target_bmi : Q) (height : Z) : Q :=
  target_bmi * ((inject_Z height / 100) ^ 2).

(** Ideal weight range (tab 3). *)
Definition ideal_min (height : Z) : Q := 18.5 * ((inject_Z height / 100) ^ 2).
Definition ideal_max (height : Z) : Q := 24.9 * ((inject_Z height / 100) ^ 2).

(** [weight_diff = weight - target_weight] (tab 5). *)
Definition weight_diff (weight : Z) (target_weight : Q) : Q :=
  inject_Z weight - target_weight.

(** BMR of the Daily Calorie Guidelines (tab 3).  [10 * weight] and
    [5 * age] are products of [int]s. *)
Definition bmr (gender : string) (weight height age : Z) : Q :=
  if String.eqb gender "Male"
  then inject_Z (10 * weight) + 6.25 * inject_Z height - inject_Z (5 * age) + 5
  else inject_Z (10 * weight) + 6.25 * inject_Z height - inject_Z (5 * age) - 161.

(** The third column of the guidelines: label and kcal/day, the latter
    in its exact value; on floats it is [OnFloats.weight_goal]. *)
Definition weight_goal (bmi bmr : Q) : string * Q :=
  if Py.gt bmi 25
  then ("Weight Loss Goal"%string, bmr * 1.55 - 500)
  else ("Weight Gain Goal"%string, bmr * 1.55 + 500).

(** The three metrics of the guidelines, left to right. *)
Definition daily_calorie_guidelines (gender : string) (weight height age : Z)
    (bmi : Q) : list (string * Q) :=
  let bmr := bmr gender weight height age in
  [ ("BMR (Base)"%string, bmr);
    ("Maintain Weight"%string, bmr * 1.55);
    weight_goal bmi bmr ].

(** Duration slider of tab 1 and the Cal/min metric shown after a
    prediction. *)
Definition duration_slider (raw : option Z) : Z := St.slider 5 180 30 raw.

Definition cal_per_min (calories : Q) (duration : Z) : option Q :=
  Py.truediv calories (inject_Z duration).

(** The Mifflin-St Jeor equation as published, on rationals. *)
Definition mifflin_st_jeor (male : bool) (weight height age : Q) : Q :=
  10 * weight + 6.25 * height - 5 * age + (if male then 5 else - (161)).

(** ** The log book *)

Module LogBook.

(** The dictionary the page builds after a prediction and hands to
    [add_entry] (tab 1). *)
Record log_entry : Type := {
  calories_burned : Q;
  exercise_type : string;
  duration : Z;
  heart_rate : Z;
  body_temp : Q;
  weight : Z;
  bmi : Q
}.

(** A stored entry: the page's dictionary under the time of its
    recording, in seconds. *)
Record entry : Type := {
  timestamp : Z;
  data : log_entry
}.

(** The book is the sequence of its entries, oldest first. *)
Definition t : Type := list entry.

Definition seconds_per_day : Z := 86400.

(** First instant of the window of the last [days] days. *)
Definition cutoff (days now : Z) : Z := (now - days * seconds_per_day)%Z.

Definition in_window (days now : Z) (e : entry) : bool :=
  (cutoff days now <=? timestamp e)%Z.

Definition day_of (e : entry) : Z := (timestamp e / seconds_per_day)%Z.

(** Modelled from the spec: [LogBook.add_entry] of the absent [backend]
    module, "append-only collection of prediction events with
    timestamp": the entry is stamped with the clock and put at the
    end. *)
Definition add_entry (now : Z) (e : log_entry) (book : t) : t :=
  book ++ [ {| timestamp := now; data := e |} ].

(** Modelled from the spec: [LogBook.get_logs] of the absent [backend]
    module, the "date-range filtering" of the book, a linear filter
    that keeps the entries of the last [days] days in their order. *)
Definition get_logs (days now : Z) (book : t) : list entry :=
  filter (in_window days now) book.

Record stats : Type := {
  total_calories : Q;
  avg_calories : Q;
  total_sessions : nat;
  total_duration : Z
}.

(** Running totals of one pass over the book. *)
Record tally : Type := {
  calories_so_far : Q;
  duration_so_far : Z;
  sessions_so_far : nat
}.

Definition no_tally : tally :=
  {| calories_so_far := 0; duration_so_far := 0; sessions_so_far := 0 |}.

Definition count_entry (days now : Z) (s : tally) (e : entry) : tally :=
  if in_window days now e
  then {| calories_so_far := calories_so_far s + calories_burned (data e);
          duration_so_far := duration_so_far s + duration (data e);
          sessions_so_far := S (sessions_so_far s) |}
  else s.

(** Modelled from the spec: [LogBook.get_stats] of the absent [backend]
    module, the "summary statistics" of the book, a "linear filter +
    reduce" that runs once over the entries and counts those of the
    window.  The average is the quotient of [Q], which is 0 at a zero
    count; the spec does not say what the backend answers there. *)
Definition get_stats (days now : Z) (book : t) : stats :=
  let s := fold_left (count_entry days now) book no_tally in
  {| total_calories := calories_so_far s;
     avg_calories := calories_so_far s / inject_Z (Z.of_nat (sessions_so_far s));
     total_sessions := sessions_so_far s;
     total_duration := duration_so_far s |}.

(** One row per day of the chart of tab 2. *)
Record daily : Type := {
  date : Z;
  day_calories : Q
}.

Fixpoint add_to_day (d : Z) (c : Q) (rows : list daily) : list daily :=
  match rows with
  | [] => [ {| date := d; day_calories := c |} ]
  | r :: rows' =>
      if (date r =? d)%Z
      then {| date := d; day_calories := day_calories r + c |} :: rows'
      else r :: add_to_day d c rows'
  end.

(** Modelled from the spec: [LogBook.get_daily_aggregates] of the absent
    [backend] module, the "per-day aggregation" of the entries of the
    window. *)
Definition get_daily_aggregates (days now : Z) (book : t) : list daily :=
  fold_left (fun rows e => add_to_day (day_of e) (calories_burned (data e)) rows)
            (get_logs days now book) [].

(** The operations of the book as the page calls them, each with the
    clock at the call. *)
Inductive call : Type :=
| AddEntry (now : Z) (e : log_entry)
| GetLogs (days now : Z)
| GetStats (days now : Z)
| GetDailyAggregates (days now : Z).

Inductive reply : Type :=
| Added
| Logs (logs : list entry)
| Stats (s : stats)
| Daily (rows : list daily).

(** One call: the book after it and what it returns. *)
Definition step (book : t) (c : call) : t * reply :=
  match c with
  | AddEntry now e => (add_entry now e book, Added)
  | GetLogs days now => (book, Logs (get_logs days now book))
  | GetStats days now => (book, Stats (get_stats days now book))
  | GetDailyAggregates days now => (book, Daily (get_daily_aggregates days now book))
  end.

(** The book after a sequence of calls. *)
Definition run (book : t) (cs : list call) : t :=
  fold_left (fun b c => fst (step b c)) cs book.

(** Sums over a list of entries, as the page's reader would take them. *)
Definition sum_calories (logs : list entry) : Q :=
  fold_right (fun e s => calories_burned (data e) + s) 0 logs.

Definition sum_duration (logs : list entry) : Z :=
  fold_right (fun e s => (duration (data e) + s)%Z) 0%Z logs.

End LogBook.

(** ** The nutrition advisor *)

Module NutritionAdvisor.

Inductive category : Type := Underweight | Normal | Overweight | Obese.

(** Modelled from the spec: [NutritionAdvisor.get_bmi_category] of the
    absent [backend] module, a threshold function with "boundaries ...
    at 18.5, 25, 30". *)
Definition get_bmi_category (bmi : Q) : category :=
  if Py.lt bmi 18.5 then Underweight
  else if Py.lt bmi 25 then Normal
  else if Py.lt bmi 30 then Overweight
  else Obese.

(** One month of the plan.  The calorie adjustment, the exercise goal
    and the focus areas of a step are canned text of the absent module
    and are not part of the model. *)
Record plan_step : Type := {
  month : nat;
  target_weight : Q
}.

Section MonthlyPlan.

(** Number of months of the plan, "derived deterministically from
    (current BMI, target BMI, weight, height)"; the spec does not
    give the rule. *)
Variable months_needed : Q -> Q -> Z -> Z -> nat.

(** The weight to reach by the end of month [i] of [n], on the line
    from the current weight to the target. *)
Definition interpolate (weight target : Q) (n i : nat) : Q :=
  weight + (target - weight) * (inject_Z (Z.of_nat i) / inject_Z (Z.of_nat n)).

(** Modelled from the spec: the [monthly_plan] of
    [NutritionAdvisor.get_monthly_suggestions] of the absent
    [backend] module, "a simple month-by-month weight-target plan"
    whose "weight targets interpolate ... between current and target
    weight".  The final target is the weight of the target BMI at
    this height, as tab 5 computes it. *)
Definition get_monthly_suggestions (current_bmi target_bmi : Q)
    (weight height : Z) : list plan_step :=
  let target := target_bmi * ((inject_Z height / 100) ^ 2) in
  let n := months_needed current_bmi target_bmi weight height in
  map (fun i => {| month := i;
                   target_weight := interpolate (inject_Z weight) target n i |})
      (seq 1 n).

End MonthlyPlan.

End NutritionAdvisor.

(** The steps of the BMI gauge of tab 3: lower end, upper end, colour. *)
Definition gauge_steps : list (Q * Q * string) :=
  [ (15, 18.5, "lightblue"%string);
    (18.5, 25, "lightgreen"%string);
    (25, 30, "yellow"%string);
    (30, 40, "lightcoral"%string) ].

(** Position of the first step whose range holds [v], counting the lower
    end in and the upper end out. *)
Fixpoint step_of (steps : list (Q * Q * string)) (v : Q) : option nat :=
  match steps with
  | [] => None
  | (lo, hi, _) :: steps' =>
      if Py.le lo v && Py.lt v hi then Some O
      else option_map S (step_of steps' v)
  end.

Definition category_index (c : NutritionAdvisor.category) : nat :=
  match c with
  | NutritionAdvisor.Underweight => 0
  | NutritionAdvisor.Normal => 1
  | NutritionAdvisor.Overweight => 2
  | NutritionAdvisor.Obese => 3
  end.

(** The y values of the Projected Weight Journey chart of tab 5:
    [[weight] + [plan['target_weight'] for plan in monthly_plan]]. *)
Definition weights (weight : Z) (monthly_plan : list NutritionAdvisor.plan_step)
    : list Q :=
  [inject_Z weight] ++ map NutritionAdvisor.target_weight monthly_plan.

(** The x values of the same chart. *)
Definition months (monthly_plan : list NutritionAdvisor.plan_step) : list nat :=
  [O] ++ map NutritionAdvisor.month monthly_plan.

(** ** The script

    Streamlit runs [app.py] from top to bottom on every interaction.  A
    run reads the widgets, calls the backend and writes to the page; it
    is embedded as a computation over the log book that records, in
    order, the backend calls it makes and what it shows, and that stops
    at the first exception. *)

Module Profile.

(** [st.session_state.user_profile] *)
Record t : Type := {
  gender : string;
  age : Z;
  height : Z;
  weight : Z;
  bmi : Q
}.

End Profile.

(** What [AIAnalyzer.analyze_performance] returns. *)
Record analysis : Type := {
  trends : list string;
  insights : list string;
  recommendations : list string
}.

(** The value a metric displays. *)
Inductive shown : Type :=
| Number (q : Q)
| Range (lo hi : Q)
| Count (n : nat)
| Label (c : NutritionAdvisor.category).

(** What a run leaves behind: the calls into the backend and the
    metrics, messages, charts and tables it puts on the page.  Headers,
    captions, markdown text, dividers, progress bars and balloons leave
    no event. *)
Inductive event : Type :=
| Predict                                  (* predictor.predict_calories *)
| BookCall (c : LogBook.call)              (* a method of logbook *)
| Analyze (logs : list LogBook.entry)      (* AIAnalyzer.analyze_performance *)
| Advise (method : string)                 (* a method of advisor *)
| Metric (label : string) (value : shown)  (* st.metric *)
| Info (body : string)                     (* st.info *)
| Success (body : string)                  (* st.success *)
| Warning (body : string)                  (* st.warning *)
| Chart (title : string) (ys : list Q)     (* st.plotly_chart *)
| Table (rows : list LogBook.entry).       (* st.dataframe *)

(** A run from a book: its result ([None] after an exception), the book
    it leaves and its trace. *)
Definition App (A : Type) : Type :=
  LogBook.t -> option A * LogBook.t * list event.

Definition ret {A : Type} (a : A) : App A :=
  fun book => (Some a, book, []).

Definition bind {A B : Type} (m : App A) (k : A -> App B) : App B :=
  fun book =>
    match m book with
    | (Some a, book1, tr1) =>
        match k a book1 with
        | (r, book2, tr2) => (r, book2, tr1 ++ tr2)
        end
    | (None, book1, tr1) => (None, book1, tr1)
    end.

Notation "x <- m ;; k" := (bind m (fun x => k))
  (at level 61, m at next level, right associativity).
Notation "m ;;; k" := (bind m (fun _ => k))
  (at level 61, right associativity).

(** An exception that nothing catches. *)
Definition raise {A : Type} : App A :=
  fun book => (None, book, []).

Definition lift {A : Type} (o : option A) : App A :=
  match o with
  | Some a => ret a
  | None => raise
  end.

Definition emit (e : event) : App unit :=
  fun book => (Some tt, book, [e]).

Definition result {A : Type} (r : option A * LogBook.t * list event) : option A :=
  fst (fst r).
Definition book_of {A : Type} (r : option A * LogBook.t * list event) : LogBook.t :=
  snd (fst r).
Definition trace {A : Type} (r : option A * LogBook.t * list event) : list event :=
  snd r.

(** [for x in xs: body(x)] *)
Fixpoint for_each {A : Type} (xs : list A) (body : A -> App unit) : App unit :=
  match xs with
  | [] => ret tt
  | x :: xs' => body x ;;; for_each xs' body
  end.

(** The methods of [logbook], each a [LogBook.step]. *)
Definition add_entry (now : Z) (e : LogBook.log_entry) : App unit :=
  fun book => (Some tt, LogBook.add_entry now e book,
               [BookCall (LogBook.AddEntry now e)]).

Definition get_logs (days now : Z) : App (list LogBook.entry) :=
  fun book => (Some (LogBook.get_logs days now book), book,
               [BookCall (LogBook.GetLogs days now)]).

Definition get_stats (days now : Z) : App LogBook.stats :=
  fun book => (Some (LogBook.get_stats days now book), book,
               [BookCall (LogBook.GetStats days now)]).

Definition get_daily_aggregates (days now : Z) : App (list LogBook.daily) :=
  fun book => (Some (LogBook.get_daily_aggregates days now book), book,
               [BookCall (LogBook.GetDailyAggregates days now)]).

(** [DataFrame.tail(n)] on the rows of a frame. *)
Definition tail {A : Type} (n : nat) (rows : list A) : list A :=
  skipn (List.length rows - n)%nat rows.

(** What the browser holds for the widgets of the page. *)
Record inputs : Type := {
  gender_raw : option nat;
  age_raw : option Z;
  height_raw : option Z;
  weight_raw : option Z;
  exercise_type_raw : option nat;
  duration_raw : option Z;
  heart_rate_raw : option Z;
  body_temp_raw : option Q;
  calculate_clicked : bool;
  days_filter_raw : option nat;
  target_bmi_raw : option Q;
  generate_plan_clicked : bool
}.

Section Script.

(** [predictor.predict_calories]: the class of the absent [backend]
    module or the unpickled [calorie_model.pkl]; [None] is an
    exception of it. *)
Variable predict_calories :
  string -> Z -> Z -> Z -> Z -> Z -> Q -> string -> option Q.

(** [AIAnalyzer.analyze_performance] of the absent [backend] module. *)
Variable analyze_performance :
  list LogBook.entry -> Profile.t -> option analysis.

(** Length of the monthly plan, see [NutritionAdvisor]. *)
Variable months_needed : Q -> Q -> Z -> Z -> nat.

(** The clock of the run. *)
Variable now : Z.

(** Sidebar: the user profile. *)
Definition sidebar (inp : inputs) : App Profile.t :=
  let gender := St.selectbox ["Male"; "Female"]%string 0 ""%string (gender_raw inp) in
  let age := St.number_input 10 100 30 (age_raw inp) in
  let height := St.number_input 100 250 170 (height_raw inp) in
  let weight := St.number_input 30 200 70 (weight_raw inp) in
  bmi <- lift (bmi weight height) ;;
  emit (Advise "get_bmi_category") ;;;
  emit (Metric "Current BMI" (Number bmi)) ;;;
  ret {| Profile.gender := gender; Profile.age := age;
         Profile.height := height; Profile.weight := weight;
         Profile.bmi := bmi |}.

(** Tab 1: predict calories. *)
Definition tab1 (p : Profile.t) (inp : inputs) : App unit :=
  let exercise_type :=
    St.selectbox ["Running"; "Walking"; "Cycling"; "Swimming"; "Gym"]%string
                 0 ""%string (exercise_type_raw inp) in
  let duration := duration_slider (duration_raw inp) in
  let heart_rate := St.slider 60 200 120 (heart_rate_raw inp) in
  let body_temp := St.number_inputf 35.0 42.0 37.0 (body_temp_raw inp) in
  emit (Info "Your Stats") ;;;
  if calculate_clicked inp then
    emit Predict ;;;
    calories <- lift (predict_calories (Profile.gender p) (Profile.age p)
                        (Profile.height p) (Profile.weight p) duration
                        heart_rate body_temp exercise_type) ;;
    emit (Success "Estimated Calories Burned") ;;;
    add_entry now {| LogBook.calories_burned := calories;
                     LogBook.exercise_type := exercise_type;
                     LogBook.duration := duration;
                     LogBook.heart_rate := heart_rate;
                     LogBook.body_temp := body_temp;
                     LogBook.weight := Profile.weight p;
                     LogBook.bmi := Profile.bmi p |} ;;;
    emit (Metric "Calories" (Number calories)) ;;;
    emit (Metric "Duration" (Number (inject_Z duration))) ;;;
    rate <- lift (cal_per_min calories duration) ;;
    emit (Metric "Cal/min" (Number rate))
  else ret tt.

(** Tab 2: logbook and analytics. *)
Definition tab2 (p : Profile.t) (inp : inputs) : App unit :=
  let days_filter := St.selectbox [7; 14; 30; 60; 90]%Z 2 0%Z (days_filter_raw inp) in
  logs_df <- get_logs days_filter now ;;
  if negb (Nat.eqb (List.length logs_df) 0) then
    stats <- get_stats days_filter now ;;
    emit (Metric "Total Calories" (Number (LogBook.total_calories stats))) ;;;
    emit (Metric "Avg Calories/Session" (Number (LogBook.avg_calories stats))) ;;;
    emit (Metric "Total Sessions" (Count (LogBook.total_sessions stats))) ;;;
    emit (Metric "Total Duration" (Number (inject_Z (LogBook.total_duration stats)))) ;;;
    daily_data <- get_daily_aggregates days_filter now ;;
    emit (Chart "Daily Calorie Burn Trend" (map LogBook.day_calories daily_data)) ;;;
    emit (Chart "Exercise Type Distribution" []) ;;;
    emit (Chart "Heart Rate Distribution"
            (map (fun e => inject_Z (LogBook.heart_rate (LogBook.data e))) logs_df)) ;;;
    emit (Analyze logs_df) ;;;
    analysis <- lift (analyze_performance logs_df p) ;;
    for_each (trends analysis) (fun trend => emit (Info trend)) ;;;
    for_each (insights analysis) (fun insight => emit (Success insight)) ;;;
    for_each (recommendations analysis) (fun rec => emit (Warning rec)) ;;;
    emit (Table (tail 10 logs_df))
  else
    emit (Info "No logs yet! Start by predicting your calorie burn in the first tab.").

(** Tab 3: nutrition tips and the Daily Calorie Guidelines. *)
Definition tab3 (p : Profile.t) : App unit :=
  emit (Chart "BMI" [Profile.bmi p]) ;;;
  emit (Metric "Current Weight" (Number (inject_Z (Profile.weight p)))) ;;;
  emit (Metric "Height" (Number (inject_Z (Profile.height p)))) ;;;
  emit (Metric "Ideal Weight Range"
          (Range (ideal_min (Profile.height p)) (ideal_max (Profile.height p)))) ;;;
  emit (Advise "get_nutrition_tips") ;;;
  for_each (daily_calorie_guidelines (Profile.gender p) (Profile.weight p)
              (Profile.height p) (Profile.age p) (Profile.bmi p))
           (fun m => emit (Metric (fst m) (Number (snd m)))).

(** Tab 4: exercise recommendations; static text after one call of
    the advisor. *)
Definition tab4 : App unit :=
  emit (Advise "get_recommended_exercises") ;;;
  emit (Info "Recommended Duration").

(** Tab 5: monthly goals.  Of the plan the run keeps the call of the
    advisor, the timeline message and the chart; the expanders of the
    months (markdown of the step's fields and the progress bar, see
    [OnFloats.progress_bar]) are not part of the trace. *)
Definition tab5 (p : Profile.t) (inp : inputs) : App unit :=
  let bmi := Profile.bmi p in
  let weight := Profile.weight p in
  let height := Profile.height p in
  emit (Metric "Current BMI" (Number bmi)) ;;;
  emit (Metric "Category" (Label (NutritionAdvisor.get_bmi_category bmi))) ;;;
  emit (Metric "Current Weight" (Number (inject_Z weight))) ;;;
  let target_bmi :=
    St.number_inputf 18.5 24.9
      (Py.min 24.9 (Py.max 18.5
         (if Py.le 18.5 bmi && Py.le bmi 24.9 then bmi else 22.0)))
      (target_bmi_raw inp) in
  let target_weight := target_weight target_bmi height in
  emit (Metric "Target Weight" (Number target_weight)) ;;;
  let weight_diff := weight_diff weight target_weight in
  emit (Metric "Weight to Adjust" (Number (Qabs weight_diff))) ;;;
  if generate_plan_clicked inp then
    emit (Advise "get_monthly_suggestions") ;;;
    let monthly_plan :=
      NutritionAdvisor.get_monthly_suggestions months_needed bmi target_bmi
        weight height in
    emit (Success "Timeline to Goal") ;;;
    emit (Chart "Weight Loss/Gain Projection" (weights weight monthly_plan))
  else ret tt.

(** Sidebar footer: quick stats of the week. *)
Definition quick_stats : App unit :=
  logs <- get_logs 7 now ;;
  if Nat.eqb (List.length logs) 0 then
    emit (Info "No activity this week. Start logging!")
  else
    week_stats <- get_stats 7 now ;;
    emit (Metric "This Week's Calories" (Number (LogBook.total_calories week_stats))) ;;;
    emit (Metric "Sessions" (Count (LogBook.total_sessions week_stats))).

(** One run of the script. *)
Definition main (inp : inputs) : App unit :=
  p <- sidebar inp ;;
  tab1 p inp ;;;
  tab2 p inp ;;;
  tab3 p ;;;
  tab4 ;;;
  tab5 p inp ;;;
  quick_stats.

End Script.

(** The book after the calls of a trace, in their order. *)
Fixpoint replay (book : LogBook.t) (tr : list event) : LogBook.t :=
  match tr with
  | [] => book
  | BookCall c :: tr' => replay (fst (LogBook.step book c)) tr'
  | _ :: tr' => replay book tr'
  end.

(** A trace is guarded from a book when each of its computations over
    logged data finds entries to compute on: a [get_stats] or a
    [get_daily_aggregates] is called on a book whose window, at that
    point of the trace, is not empty, and the analysis is given at least
    one entry. *)
Fixpoint guarded (book : LogBook.t) (tr : list event) : Prop :=
  match tr with
  | [] => True
  | BookCall (LogBook.GetStats days now as c) :: tr'
  | BookCall (LogBook.GetDailyAggregates days now as c) :: tr' =>
      LogBook.get_logs days now book <> []
      /\ guarded (fst (LogBook.step book c)) tr'
  | BookCall c :: tr' => guarded (fst (LogBook.step book c)) tr'
  | Analyze logs :: tr' => logs <> [] /\ guarded book tr'
  | _ :: tr' => guarded book tr'
  end.

(** The events that are neither a call of the book nor the analysis. *)
Definition quiet (e : event) : bool :=
  match e with
  | BookCall _ | Analyze _ => false
  | _ => true
  end.

(** A run from [book] is sound when its trace accounts for the book it
    leaves and is guarded. *)
Definition sound_at {A : Type} (book : LogBook.t) (m : App A) : Prop :=
  book_of (m book) = replay book (trace (m book))
  /\ guarded book (trace (m book)).

(** A book of two sessions, the first eight days before the second. *)
Definition sample_run : LogBook.log_entry :=
  {| LogBook.calories_burned := 250; LogBook.exercise_type := "Running";
     LogBook.duration := 30; LogBook.heart_rate := 120;
     LogBook.body_temp := 37; LogBook.weight := 70;
     LogBook.bmi := 7000 # 289 |}.

Definition sample_walk : LogBook.log_entry :=
  {| LogBook.calories_burned := 90; LogBook.exercise_type := "Walking";
     LogBook.duration := 45; LogBook.heart_rate := 95;
     LogBook.body_temp := 36.8; LogBook.weight := 70;
     LogBook.bmi := 7000 # 289 |}.

Definition sample_book : LogBook.t :=
  LogBook.add_entry 1691200 sample_walk (LogBook.add_entry 1000000 sample_run []).

(** The page before the user touches it, and with the two buttons
    pressed. *)
Definition untouched : inputs :=
  {| gender_raw := None; age_raw := None; height_raw := None;
     weight_raw := None; exercise_type_raw := None; duration_raw := None;
     heart_rate_raw := None; body_temp_raw := None;
     calculate_clicked := false; days_filter_raw := None;
     target_bmi_raw := None; generate_plan_clicked := false |}.

Definition pressed : inputs :=
  {| gender_raw := None; age_raw := None; height_raw := None;
     weight_raw := Some 80%Z; exercise_type_raw := None; duration_raw := None;
     heart_rate_raw := None; body_temp_raw := None;
     calculate_clicked := true; days_filter_raw := None;
     target_bmi_raw := None; generate_plan_clicked := true |}.

Definition sample_profile : Profile.t :=
  {| Profile.gender := "Male"; Profile.age := 30; Profile.height := 170;
     Profile.weight := 70; Profile.bmi := 7000 # 289 |}.

(** The backend method behind an event. *)
Definition method_of (e : event) : list string :=
  match e with
  | Predict => ["predict_calories"%string]
  | BookCall (LogBook.AddEntry _ _) => ["add_entry"%string]
  | BookCall (LogBook.GetLogs _ _) => ["get_logs"%string]
  | BookCall (LogBook.GetStats _ _) => ["get_stats"%string]
  | BookCall (LogBook.GetDailyAggregates _ _) => ["get_daily_aggregates"%string]
  | Analyze _ => ["analyze_performance"%string]
  | Advise m => [m]
  | _ => []
  end.

(** ** The rest of the page *)

(** The profile the sidebar stores in the session: the values of its
    four widgets and the BMI computed from them. *)
Definition sidebar_profile (inp : inputs) : Profile.t :=
  let height := St.number_input 100 250 170 (height_raw inp) in
  let weight := St.number_input 30 200 70 (weight_raw inp) in
  {| Profile.gender :=
       St.selectbox ["Male"; "Female"]%string 0 ""%string (gender_raw inp);
     Profile.age := St.number_input 10 100 30 (age_raw inp);
     Profile.height := height;
     Profile.weight := weight;
     Profile.bmi := inject_Z weight / (inject_Z height / 100) ^ 2 |}.

(** The call of the predictor behind the button of tab 1. *)
Definition tab1_prediction
    (predict_calories : string -> Z -> Z -> Z -> Z -> Z -> Q -> string -> option Q)
    (p : Profile.t) (inp : inputs) : option Q :=
  predict_calories (Profile.gender p) (Profile.age p) (Profile.height p)
    (Profile.weight p) (duration_slider (duration_raw inp))
    (St.slider 60 200 120 (heart_rate_raw inp))
    (St.number_inputf 35.0 42.0 37.0 (body_temp_raw inp))
    (St.selectbox ["Running"; "Walking"; "Cycling"; "Swimming"; "Gym"]%string
       0 ""%string (exercise_type_raw inp)).

(** [log_entry], the dictionary tab 1 builds from an estimate. *)
Definition tab1_entry (p : Profile.t) (inp : inputs) (calories : Q)
    : LogBook.log_entry :=
  {| LogBook.calories_burned := calories;
     LogBook.exercise_type :=
       St.selectbox ["Running"; "Walking"; "Cycling"; "Swimming"; "Gym"]%string
         0 ""%string (exercise_type_raw inp);
     LogBook.duration := duration_slider (duration_raw inp);
     LogBook.heart_rate := St.slider 60 200 120 (heart_rate_raw inp);
     LogBook.body_temp := St.number_inputf 35.0 42.0 37.0 (body_temp_raw inp);
     LogBook.weight := Profile.weight p;
     LogBook.bmi := Profile.bmi p |}.

(** [days_filter], the Time Period of tab 2. *)
Definition days_filter (inp : inputs) : Z :=
  St.selectbox [7; 14; 30; 60; 90]%Z 2 0%Z (days_filter_raw inp).

(** The [value] argument of the Target BMI input of tab 5:
    [min(24.9, max(18.5, bmi if 18.5 <= bmi <= 24.9 else 22.0))]. *)
Definition target_bmi_value (bmi : Q) : Q :=
  Py.min 24.9 (Py.max 18.5
    (if Py.le 18.5 bmi && Py.le bmi 24.9 then bmi else 22.0)).

(** [target_bmi], the Target BMI input of tab 5. *)
Definition target_bmi (bmi : Q) (raw : option Q) : Q :=
  St.number_inputf 18.5 24.9 (target_bmi_value bmi) raw.

(** The number in the [delta] of the Weight to Adjust metric of tab 5:
    [-weight_diff] when [weight_diff > 0], [abs(weight_diff)] behind a
    plus sign otherwise. *)
Definition weight_delta (weight_diff : Q) : Q :=
  if Py.gt weight_diff 0 then - weight_diff else Qabs weight_diff.

(** ** Heart-rate zones (tab 4)

    The bounds of the zones are [int(max_hr * low)], truncations of
    products of binary64 floats; whether a product falls just below an
    integer depends on its rounding, so this part of the page is
    embedded on the binary64 floats themselves. *)

Module Float64.

(** [float(z)] of an [int]. *)
Definition of_int (z : Z) : PrimFloat.float :=
  if (z <? 0)%Z
  then PrimFloat.opp (PrimFloat.of_uint63 (Uint63.of_Z (- z)))
  else PrimFloat.of_uint63 (Uint63.of_Z z).

(** [int(f)]: the float cut towards zero; [None] stands for the
    [OverflowError] at an infinity and the [ValueError] at a NaN. *)
Definition to_int (f : PrimFloat.float) : option Z :=
  match FloatOps.Prim2SF f with
  | SpecFloat.S754_zero _ => Some 0%Z
  | SpecFloat.S754_finite s m e =>
      let v := if (0 <=? e)%Z
               then (Z.pos m * 2 ^ e)%Z
               else (Z.pos m / 2 ^ (- e))%Z in
      Some (if s then (- v)%Z else v)
  | _ => None
  end.

End Float64.

Module HeartRate.

Import PrimFloat.

(** [max_hr = 220 - age] *)
Definition max_hr (age : Z) : Z := (220 - age)%Z.

#[local] Set Warnings "-inexact-float".

(** [zones], in the order of the dictionary; each literal is the
    binary64 float nearest to it, as in Python. *)
Definition zones : list (string * (float * float)) :=
  [ ("Warm-up"%string, (0.5%float, 0.6%float));
    ("Fat Burn"%string, (0.6%float, 0.7%float));
    ("Cardio"%string, (0.7%float, 0.8%float));
    ("Peak"%string, (0.8%float, 0.9%float));
    ("Max"%string, (0.9%float, 1.0%float)) ].

#[local] Set Warnings "inexact-float".

(** [int(max_hr * low)], the product taken on floats. *)
Definition zone_bound (max_hr : Z) (part : float) : option Z :=
  Float64.to_int (PrimFloat.mul (Float64.of_int max_hr) part).

(** The lines of the zones: name, [low_hr], [high_hr]. *)
Definition zone_lines (age : Z) : list (string * option Z * option Z) :=
  map (fun zone =>
         let '(zone_name, (low, high)) := zone in
         (zone_name, zone_bound (max_hr age) low, zone_bound (max_hr age) high))
      zones.

(** The whole number of beats in [tenths] tenths of the maximum, in
    exact arithmetic. *)
Definition exact_bound (age tenths : Z) : Z := (max_hr age * tenths / 10)%Z.

(** The bound the page shows for [tenths] tenths: the exact one, but one
    beat less at seven tenths for the ages of 40 and 50. *)
Definition shown_bound (age tenths : Z) : Z :=
  if ((tenths =? 7) && ((age =? 40) || (age =? 50)))%Z
  then (exact_bound age tenths - 1)%Z
  else exact_bound age tenths.

End HeartRate.

(** ** The page on binary64 floats

    The numbers of the page are Python floats.  Where a property hangs
    on their rounding, the expression is embedded a second time on the
    binary64 floats themselves, under the name it has above; the
    rational definitions above give the exact value of the same
    expression. *)

Module OnFloats.

Import PrimFloat.

#[local] Set Warnings "-inexact-float".

(** The exact value of a finite float. *)
Definition to_Q (f : float) : option Q :=
  match FloatOps.Prim2SF f with
  | SpecFloat.S754_zero _ => Some 0
  | SpecFloat.S754_finite s m e =>
      let v := if (0 <=? e)%Z
               then inject_Z (Z.pos m * 2 ^ e)
               else Z.pos m # Z.to_pos (2 ^ (- e)) in
      Some (if s then - v else v)
  | _ => None
  end.

(** [x / y] on floats: [None] stands for [ZeroDivisionError]. *)
Definition truediv (x y : float) : option float :=
  if (y =? 0)%float then None else Some (x / y)%float.

(** [(height / 100) ** 2]: the quotient of the two [int]s, rounded, and
    its square, the rounded product of the quotient with itself. *)
Definition height_m2 (height : Z) : float :=
  let m := (Float64.of_int height / 100)%float in (m * m)%float.

(** [weight / ((height / 100) ** 2)] at any weight. *)
Definition bmi_of (weight : float) (height : Z) : option float :=
  truediv weight (height_m2 height).

(** [bmi = weight / ((height / 100) ** 2)] (sidebar). *)
Definition bmi (weight height : Z) : option float :=
  bmi_of (Float64.of_int weight) height.

(** [target_weight = target_bmi * ((height / 100) ** 2)] (tab 5). *)
Definition target_weight (target_bmi : float) (height : Z) : float :=
  (target_bmi * height_m2 height)%float.

(** The float that a number of one decimal denotes: [k] tenths. *)
Definition tenths (k : Z) : float := (Float64.of_int k / 10)%float.

(** The float of [k] quarters; no rounding up to 2^53 quarters. *)
Definition quarters (k : Z) : float := (Float64.of_int k / 4)%float.

(** BMR of the Daily Calorie Guidelines (tab 3). *)
Definition bmr (gender : string) (weight height age : Z) : float :=
  if String.eqb gender "Male"
  then (Float64.of_int (10 * weight) + 6.25 * Float64.of_int height
        - Float64.of_int (5 * age) + 5)%float
  else (Float64.of_int (10 * weight) + 6.25 * Float64.of_int height
        - Float64.of_int (5 * age) - 161)%float.

(** The third column of the guidelines: label and kcal/day. *)
Definition weight_goal (bmi bmr : float) : string * float :=
  if (25 <? bmi)%float
  then ("Weight Loss Goal"%string, (bmr * 1.55 - 500)%float)
  else ("Weight Gain Goal"%string, (bmr * 1.55 + 500)%float).

(** The goal of a BMR of 264 kcal/day above a BMI of 25. *)
Definition lowest_goal : float := (264 * 1.55 - 500)%float.

(** [(month / len) * 100] on the two [int]s. *)
Definition progress_of (month len : Z) : option float :=
  match truediv (Float64.of_int month) (Float64.of_int len) with
  | Some r => Some (r * 100)%float
  | None => None
  end.

(** [progress = (month_plan['month'] / len(suggestions['monthly_plan'])) * 100]
    of a month's expander in tab 5. *)
Definition progress (month : nat)
    (monthly_plan : list NutritionAdvisor.plan_step) : option float :=
  progress_of (Z.of_nat month) (Z.of_nat (List.length monthly_plan)).

(** [progress / 100], the argument of [st.progress]; Streamlit refuses
    a value outside of 0.0 to 1.0. *)
Definition bar_of (month len : Z) : option float :=
  match progress_of month len with
  | Some v =>
      let bar := (v / 100)%float in
      if (0 <=? bar)%float && (bar <=? 1)%float then Some bar else None
  | None => None
  end.

(** The value [st.progress] gets in a month's expander. *)
Definition progress_bar (month : nat)
    (monthly_plan : list NutritionAdvisor.plan_step) : option float :=
  bar_of (Z.of_nat month) (Z.of_nat (List.length monthly_plan)).

(** The three steps of the BMR and its two goals, each checked for one
    choice of its arguments: the sum of the weight and height terms, the
    subtraction of the age term and the last constant fall on quarters
    and are therefore not rounded, and neither goal is below the
    lowest. *)
Definition sum_is_exact (weight height : Z) : bool :=
  Leibniz.eqb
    (Float64.of_int (10 * weight) + 6.25 * Float64.of_int height)%float
    (quarters (40 * weight + 25 * height)).

Definition difference_is_exact (fives age : Z) : bool :=
  Leibniz.eqb (quarters (5 * fives) - Float64.of_int (5 * age))%float
              (quarters (5 * fives - 20 * age)).

Definition constant_is_exact (fives : Z) : bool :=
  Leibniz.eqb (quarters (5 * fives) + 5)%float (quarters (5 * fives + 20))
  && Leibniz.eqb (quarters (5 * fives) - 161)%float
                 (quarters (5 * fives - 644)).

Definition goals_above_lowest (b : float) : bool :=
  (lowest_goal <=? b * 1.55 - 500)%float
  && (lowest_goal <=? b * 1.55 + 500)%float.

#[local] Set Warnings "inexact-float".

End OnFloats.

(** Integers from [lo], [n] of them. *)
Fixpoint Zrange (lo : Z) (n : nat) : list Z :=
  match n with
  | O => []
  | S n' => lo :: Zrange (lo + 1) n'
  end.

(** A check on every pair of two ranges. *)
Definition all2 (check : Z -> Z -> bool) (lo1 : Z) (n1 : nat)
    (lo2 : Z) (n2 : nat) : bool :=
  let range2 := Zrange lo2 n2 in
  forallb (fun x => forallb (check x) range2) (Zrange lo1 n1).

(** A float within [tol] of a rational. *)
Definition within (f : PrimFloat.float) (q tol : Q) : bool :=
  match OnFloats.to_Q f with
  | Some x => Qle_bool (Qabs (x - q)) tol
  | None => false
  end.



(** The float of [k] quarters is worth [k/4], and the goals of such a
    BMR are not below the lowest one. *)
Definition quarters_are_exact (k : Z) : bool :=
  within (OnFloats.quarters k) (inject_Z k / 4) 0
  && OnFloats.goals_above_lowest (OnFloats.quarters k).

(** The progress bar of month [month] of [len] is defined, above 0, at
    most 1, within 2^-52 of month/len and full in the last month. *)
Definition progress_bar_is_sound (len month : Z) : bool :=
  if (month <=? len)%Z then
    match OnFloats.bar_of month len with
    | Some bar =>
        PrimFloat.ltb (Float64.of_int 0) bar
        && PrimFloat.leb bar (Float64.of_int 1)
        && within bar (inject_Z month / inject_Z len) (1 # 2 ^ 52)
        && (if (month =? len)%Z
            then PrimFloat.eqb bar (Float64.of_int 1) else true)
    | None => false
    end
  else true.

(** * Properties *)

(** ** Comparisons, division and widgets *)

Lemma gt_spec (x y : Q) : Py.gt x y = true <-> y < x.
Proof.
  unfold Py.gt. rewrite negb_true_iff.
  split; intro H.
  - apply Qnot_le_lt. intro Hle. apply Qle_bool_iff in Hle. congruence.
  - destruct (Qle_bool x y) eqn:E; [|reflexivity].
    apply Qle_bool_iff in E. exfalso. apply (Qlt_not_le _ _ H E).
Qed.

Lemma gt_false (x y : Q) : Py.gt x y = false <-> x <= y.
Proof.
  unfold Py.gt. rewrite negb_false_iff. apply Qle_bool_iff.
Qed.

Lemma lt_spec (x y : Q) : Py.lt x y = true <-> x < y.
Proof. apply (gt_spec y x). Qed.

Lemma lt_false (x y : Q) : Py.lt x y = false <-> y <= x.
Proof. apply (gt_false y x). Qed.

Lemma le_spec (x y : Q) : Py.le x y = true <-> x <= y.
Proof. apply Qle_bool_iff. Qed.

Lemma truediv_nonzero (x y : Q) : ~ y == 0 -> Py.truediv x y = Some (x / y).
Proof.
  intro H. unfold Py.truediv.
  destruct (Qeq_bool y 0) eqn:E; [|reflexivity].
  apply Qeq_bool_iff in E. contradiction.
Qed.

Lemma truediv_zero (x y : Q) : y == 0 -> Py.truediv x y = None.
Proof.
  intro H. unfold Py.truediv. apply Qeq_bool_iff in H. now rewrite H.
Qed.

Lemma clamp_range (lo hi v : Z) : (lo <= hi -> lo <= St.clamp lo hi v <= hi)%Z.
Proof. unfold St.clamp. lia. Qed.

Lemma number_input_range (lo hi dflt : Z) (raw : option Z) :
  (lo <= dflt <= hi -> lo <= St.number_input lo hi dflt raw <= hi)%Z.
Proof.
  unfold St.number_input. destruct raw; [|tauto].
  intros. apply clamp_range. lia.
Qed.

Lemma slider_range (lo hi dflt : Z) (raw : option Z) :
  (lo <= dflt <= hi -> lo <= St.slider lo hi dflt raw <= hi)%Z.
Proof. apply number_input_range. Qed.

Lemma inject_Z_nonzero (z : Z) : z <> 0%Z -> ~ inject_Z z == 0.
Proof.
  intros Hz H. apply Hz.
  unfold Qeq in H. simpl in H. lia.
Qed.

(** The square of the height in metres is not zero unless the height
    is. *)
Lemma height_m2_nonzero (height : Z) :
  height <> 0%Z -> ~ (inject_Z height / 100) ^ 2 == 0.
Proof.
  intros Hh H.
  assert (Hq : ~ inject_Z height == 0) by now apply inject_Z_nonzero.
  apply Hq.
  assert (Hsq : inject_Z height * inject_Z height == 0).
  { setoid_replace (inject_Z height * inject_Z height)
      with ((inject_Z height / 100) ^ 2 * 10000) by (simpl; field).
    rewrite H. ring. }
  destruct (Qmult_integral _ _ Hsq); assumption.
Qed.

(** The heights the sidebar can hold are between 100 and 250. *)
Lemma sidebar_height_range (raw : option Z) :
  (100 <= St.number_input 100 250 170 raw <= 250)%Z.
Proof. apply number_input_range. lia. Qed.

(** ** Body metrics and calorie guidelines *)

(** C1: for every gender, weight, height and age the BMR that the Daily
    Calorie Guidelines display first is the Mifflin-St Jeor value:
    10*weight + 6.25*height - 5*age + 5 when the gender is "Male" and
    10*weight + 6.25*height - 5*age - 161 otherwise. *)
Theorem bmr_mifflin_st_jeor (gender : string) (weight height age : Z) (b : Q) :
  let w := inject_Z weight in
  let h := inject_Z height in
  let a := inject_Z age in
  hd_error (daily_calorie_guidelines gender weight height age b)
    = Some ("BMR (Base)"%string, bmr gender weight height age)
  /\ bmr gender weight height age
     == (if String.eqb gender "Male"
         then 10 * w + 6.25 * h - 5 * a + 5
         else 10 * w + 6.25 * h - 5 * a - 161)
  /\ bmr gender weight height age
     == mifflin_st_jeor (String.eqb gender "Male") w h a.
Proof.
  cbv zeta. split; [reflexivity|].
  unfold bmr, mifflin_st_jeor.
  destruct (String.eqb gender "Male");
    rewrite !inject_Z_mult; split; ring.
Qed.


(** The sidebar always has a BMI to show: its height is never 0. *)
Lemma sidebar_bmi_defined (weight : Z) (raw : option Z) :
  let height := St.number_input 100 250 170 raw in
  bmi weight height = Some (inject_Z weight / (inject_Z height / 100) ^ 2).
Proof.
  cbv zeta. unfold bmi, bmi_of.
  apply truediv_nonzero, height_m2_nonzero.
  pose proof (sidebar_height_range raw). lia.
Qed.

(** The ideal weight range of tab 3 is the target weight of the BMIs 18.5
    and 24.9. *)
Lemma ideal_range_target_weight (height : Z) :
  ideal_min height = target_weight 18.5 height
  /\ ideal_max height = target_weight 24.9 height.
Proof. split; reflexivity. Qed.

(** C9: at a BMI of exactly 25 the guidelines show the Weight Gain Goal,
    bmr*1.55 + 500; the Weight Loss Goal, bmr*1.55 - 500, is shown when
    and only when the BMI is strictly greater than 25. *)
Theorem weight_goal_at_25 (bmi bmr : Q) :
  (bmi == 25 ->
     weight_goal bmi bmr = ("Weight Gain Goal"%string, bmr * 1.55 + 500))
  /\ (fst (weight_goal bmi bmr) = "Weight Loss Goal"%string <-> 25 < bmi)
  /\ (25 < bmi ->
        weight_goal bmi bmr = ("Weight Loss Goal"%string, bmr * 1.55 - 500))
  /\ (bmi <= 25 ->
        weight_goal bmi bmr = ("Weight Gain Goal"%string, bmr * 1.55 + 500)).
Proof.
  unfold weight_goal.
  destruct (Py.gt bmi 25) eqn:E.
  - apply gt_spec in E.
    split; [intro H; rewrite H in E; discriminate|].
    split; [split; intro; [exact E|reflexivity]|].
    split; [reflexivity|].
    intro H. exfalso. apply (Qlt_not_le _ _ E H).
  - apply gt_false in E.
    split; [reflexivity|].
    split; [split; intro H; [simpl in H; discriminate|]|].
    + exfalso. apply (Qlt_not_le _ _ H E).
    + split; [|reflexivity].
      intro H. exfalso. apply (Qlt_not_le _ _ H E).
Qed.

(** A profile of 100 kg at 200 cm has a BMI of 25 and is shown the gain
    goal. *)
Lemma weight_goal_at_25_witness :
  bmi 100 200 = Some (inject_Z 100 / (inject_Z 200 / 100) ^ 2)
  /\ weight_goal (inject_Z 100 / (inject_Z 200 / 100) ^ 2) (bmr "Male" 100 200 30)
     = ("Weight Gain Goal"%string, bmr "Male" 100 200 30 * 1.55 + 500).
Proof.
  split; [reflexivity|].
  apply (proj1 (weight_goal_at_25 (inject_Z 100 / (inject_Z 200 / 100) ^ 2)
                  (bmr "Male" 100 200 30))).
  reflexivity.
Defined.

(** The duration of tab 1 is in the range of its slider. *)
Lemma duration_slider_range (raw : option Z) :
  (5 <= duration_slider raw <= 180)%Z.
Proof. apply slider_range. lia. Qed.

Lemma cal_per_min_nonzero (calories : Q) (duration : Z) :
  duration <> 0%Z ->
  cal_per_min calories duration = Some (calories / inject_Z duration).
Proof.
  intro H. apply truediv_nonzero, inject_Z_nonzero, H.
Qed.

(** At a duration of 0 the division would raise. *)
Example cal_per_min_at_zero : cal_per_min 250 0 = None.
Proof. reflexivity. Qed.

(** C10: the duration of a prediction is the value of a slider from 5 to
    180, so it is at least 5 and calories/duration is defined whatever
    the browser sent and whatever the estimate. *)
Theorem cal_per_min_defined (raw : option Z) (calories : Q) :
  (5 <= duration_slider raw)%Z
  /\ duration_slider raw <> 0%Z
  /\ cal_per_min calories (duration_slider raw)
     = Some (calories / inject_Z (duration_slider raw)).
Proof.
  pose proof (duration_slider_range raw) as H.
  split; [lia|]. split; [lia|].
  apply cal_per_min_nonzero. lia.
Qed.

(** ** The log book *)

(** One pass of [count_entry] adds to the tally the sums over the
    entries of the window. *)
Lemma fold_count_entry (days now : Z) (book : LogBook.t) (s : LogBook.tally) :
  let s' := fold_left (LogBook.count_entry days now) book s in
  let logs := LogBook.get_logs days now book in
  LogBook.calories_so_far s'
    == LogBook.calories_so_far s + LogBook.sum_calories logs
  /\ LogBook.duration_so_far s'
     = (LogBook.duration_so_far s + LogBook.sum_duration logs)%Z
  /\ LogBook.sessions_so_far s'
     = (LogBook.sessions_so_far s + List.length logs)%nat.
Proof.
  cbv zeta. revert s.
  induction book as [|e book IH]; intro s; simpl.
  - repeat split; try ring; try lia.
  - destruct (IH (LogBook.count_entry days now s e)) as (Hc & Hd & Hn).
    rewrite Hc, Hd, Hn. clear IH Hc Hd Hn.
    unfold LogBook.count_entry, LogBook.get_logs.
    destruct (LogBook.in_window days now e); simpl.
    + repeat split; try ring; try lia.
    + repeat split; try reflexivity.
Qed.

(** C2: for every book and every [days], the statistics agree with the
    entries [get_logs days] returns: the total calories are the sum of
    their [calories_burned], the average is that sum over their number,
    the sessions are their number and the total duration is the sum of
    their durations. *)
Theorem get_stats_consistent (days now : Z) (book : LogBook.t) :
  let logs := LogBook.get_logs days now book in
  let s := LogBook.get_stats days now book in
  LogBook.total_calories s == LogBook.sum_calories logs
  /\ LogBook.avg_calories s
     == LogBook.sum_calories logs / inject_Z (Z.of_nat (List.length logs))
  /\ LogBook.total_sessions s = List.length logs
  /\ LogBook.total_duration s = LogBook.sum_duration logs.
Proof.
  cbv zeta. unfold LogBook.get_stats. simpl.
  destruct (fold_count_entry days now book LogBook.no_tally) as (Hc & Hd & Hn).
  simpl in Hc, Hd, Hn.
  rewrite Hn, Hd. rewrite Hc.
  repeat split; try ring.
  rewrite Qplus_0_l. reflexivity.
Qed.

(** Every sequence of entries is a history: the book that [add_entry]
    builds from the empty one. *)
Lemma every_book_is_a_history (book : LogBook.t) :
  LogBook.run []
    (map (fun e => LogBook.AddEntry (LogBook.timestamp e) (LogBook.data e)) book)
  = book.
Proof.
  unfold LogBook.run.
  assert (H : forall start,
    fold_left (fun b c => fst (LogBook.step b c))
      (map (fun e => LogBook.AddEntry (LogBook.timestamp e) (LogBook.data e)) book)
      start = start ++ book).
  { induction book as [|e book IH]; intro start; simpl.
    - now rewrite app_nil_r.
    - rewrite IH. unfold LogBook.add_entry. rewrite <- app_assoc.
      destruct e; reflexivity. }
  apply (H []).
Qed.

(** A call leaves the book as it is or puts one entry at its end. *)
Lemma step_appends (book : LogBook.t) (c : LogBook.call) :
  fst (LogBook.step book c) = book
  \/ exists e, fst (LogBook.step book c) = book ++ [e].
Proof.
  destruct c; simpl; auto.
  right. eexists. reflexivity.
Qed.

(** Calls only extend the book. *)
Lemma run_extends (cs : list LogBook.call) (book : LogBook.t) :
  exists added, LogBook.run book cs = book ++ added.
Proof.
  revert book. induction cs as [|c cs IH]; intro book.
  - exists []. simpl. now rewrite app_nil_r.
  - change (LogBook.run book (c :: cs))
      with (LogBook.run (fst (LogBook.step book c)) cs).
    destruct (IH (fst (LogBook.step book c))) as [added ->].
    destruct (step_appends book c) as [-> | [e ->]].
    + exists added. reflexivity.
    + exists (e :: added). now rewrite <- app_assoc.
Qed.

(** C6: the book is append-only.  A call leaves the sequence of entries
    unchanged or appends one entry at its end; [get_logs], [get_stats]
    and [get_daily_aggregates] leave it unchanged and [add_entry] appends
    the new entry; and after any sequence of calls the entries that were
    in the book are still there, unchanged, at the same positions and in
    the same order. *)
Theorem logbook_append_only (book : LogBook.t) :
  (forall c, fst (LogBook.step book c) = book
             \/ exists e, fst (LogBook.step book c) = book ++ [e])
  /\ (forall days now,
        fst (LogBook.step book (LogBook.GetLogs days now)) = book
        /\ fst (LogBook.step book (LogBook.GetStats days now)) = book
        /\ fst (LogBook.step book (LogBook.GetDailyAggregates days now)) = book)
  /\ (forall now e,
        fst (LogBook.step book (LogBook.AddEntry now e))
        = book ++ [ {| LogBook.timestamp := now; LogBook.data := e |} ])
  /\ (forall cs, exists added, LogBook.run book cs = book ++ added)
  /\ (forall cs, firstn (List.length book) (LogBook.run book cs) = book)
  /\ (forall cs i e, nth_error book i = Some e ->
                     nth_error (LogBook.run book cs) i = Some e).
Proof.
  split; [apply step_appends|].
  split; [intros; repeat split|].
  split; [reflexivity|].
  split; [intro cs; apply run_extends|].
  split.
  - intro cs. destruct (run_extends cs book) as [added ->].
    rewrite firstn_app, Nat.sub_diag, firstn_all. simpl. apply app_nil_r.
  - intros cs i e H. destruct (run_extends cs book) as [added ->].
    rewrite nth_error_app1; [exact H|].
    apply nth_error_Some. congruence.
Qed.

Example sample_week : 
  map LogBook.data (LogBook.get_logs 7 1700000 sample_book) = [sample_walk]
  /\ LogBook.total_sessions (LogBook.get_stats 7 1700000 sample_book) = 1%nat
  /\ LogBook.total_duration (LogBook.get_stats 30 1700000 sample_book) = 75%Z
  /\ Qred (LogBook.avg_calories (LogBook.get_stats 30 1700000 sample_book)) = 170.
Proof. repeat split. Qed.

Lemma logbook_append_only_witness :
  nth_error sample_book 0 = Some {| LogBook.timestamp := 1000000;
                                    LogBook.data := sample_run |}
  /\ nth_error
       (LogBook.run sample_book
          [LogBook.GetStats 7 1700000; LogBook.AddEntry 1700000 sample_run;
           LogBook.GetLogs 30 1700001])
       0
     = Some {| LogBook.timestamp := 1000000; LogBook.data := sample_run |}.
Proof.
  split; [reflexivity|].
  apply (proj2 (proj2 (proj2 (proj2 (proj2 (logbook_append_only sample_book)))))).
  reflexivity.
Defined.

(** ** The nutrition advisor *)

(** C3: the category of a BMI is cut at exactly 18.5, 25 and 30: below
    18.5 underweight, from 18.5 up to 25 normal, from 25 up to 30
    overweight, 30 and above obese. *)
Theorem bmi_category_boundaries (bmi : Q) :
  let c := NutritionAdvisor.get_bmi_category bmi in
  (c = NutritionAdvisor.Underweight <-> bmi < 18.5)
  /\ (c = NutritionAdvisor.Normal <-> 18.5 <= bmi /\ bmi < 25)
  /\ (c = NutritionAdvisor.Overweight <-> 25 <= bmi /\ bmi < 30)
  /\ (c = NutritionAdvisor.Obese <-> 30 <= bmi).
Proof.
  cbv zeta. unfold NutritionAdvisor.get_bmi_category.
  destruct (Py.lt bmi 18.5) eqn:E1;
    [apply lt_spec in E1 | apply lt_false in E1];
  (destruct (Py.lt bmi 25) eqn:E2;
    [apply lt_spec in E2 | apply lt_false in E2]);
  (destruct (Py.lt bmi 30) eqn:E3;
    [apply lt_spec in E3 | apply lt_false in E3]);
  repeat split; intros; try discriminate; try reflexivity;
    try assumption; try (exfalso; lra).
Qed.

Example bmi_categories_at_the_boundaries :
  map NutritionAdvisor.get_bmi_category [18.4; 18.5; 24.9; 25; 29.9; 30]
  = [NutritionAdvisor.Underweight; NutritionAdvisor.Normal;
     NutritionAdvisor.Normal; NutritionAdvisor.Overweight;
     NutritionAdvisor.Overweight; NutritionAdvisor.Obese].
Proof. reflexivity. Qed.

(** On the scale of the gauge, from 15 up to 40, the step of tab 3 that
    holds a BMI is the one of its category. *)
Lemma gauge_step_is_category (bmi : Q) :
  15 <= bmi -> bmi < 40 ->
  step_of gauge_steps bmi
  = Some (category_index (NutritionAdvisor.get_bmi_category bmi)).
Proof.
  intros Hlo Hhi.
  unfold NutritionAdvisor.get_bmi_category, gauge_steps, step_of.
  assert (L15 : Py.le 15 bmi = true) by now apply le_spec.
  assert (L40 : Py.lt bmi 40 = true) by now apply lt_spec.
  rewrite L15, L40.
  destruct (Py.lt bmi 18.5) eqn:E1; [reflexivity|].
  apply lt_false, le_spec in E1. rewrite E1.
  destruct (Py.lt bmi 25) eqn:E2; [reflexivity|].
  apply lt_false, le_spec in E2. rewrite E2.
  destruct (Py.lt bmi 30) eqn:E3; [reflexivity|].
  apply lt_false, le_spec in E3. rewrite E3.
  reflexivity.
Qed.

(** The part [i/n] of the way grows with [i]. *)
Lemma part_monotone (n i j : nat) :
  (i <= j)%nat ->
  inject_Z (Z.of_nat i) / inject_Z (Z.of_nat n)
  <= inject_Z (Z.of_nat j) / inject_Z (Z.of_nat n).
Proof.
  intro Hij. unfold Qdiv.
  apply Qmult_le_compat_r.
  - rewrite <- Zle_Qle. lia.
  - apply Qinv_le_0_compat. change 0 with (inject_Z 0).
    rewrite <- Zle_Qle. lia.
Qed.

Lemma part_nonneg (n i : nat) :
  0 <= inject_Z (Z.of_nat i) / inject_Z (Z.of_nat n).
Proof.
  setoid_replace 0 with (inject_Z (Z.of_nat 0) / inject_Z (Z.of_nat n)).
  - apply part_monotone. lia.
  - simpl. unfold Qdiv. ring.
Qed.

Lemma part_at_most_one (n i : nat) :
  (i <= n)%nat ->
  inject_Z (Z.of_nat i) / inject_Z (Z.of_nat n) <= 1.
Proof.
  intro Hin.
  destruct n as [|n].
  - simpl. unfold Qdiv, Qinv. simpl. rewrite Qmult_0_r. discriminate.
  - setoid_replace 1 with (inject_Z (Z.of_nat (S n)) / inject_Z (Z.of_nat (S n))).
    + now apply part_monotone.
    + field. apply inject_Z_nonzero. lia.
Qed.

(** The same at the end of the plan: the whole way. *)
Lemma part_whole (n : nat) :
  (0 < n)%nat -> inject_Z (Z.of_nat n) / inject_Z (Z.of_nat n) == 1.
Proof.
  intro Hn. field. apply inject_Z_nonzero. lia.
Qed.

(** A sequence of values of [f] at consecutive months is ordered by [R]
    as soon as each month's value is related to the next one's. *)
Lemma sorted_map_seq (R : Q -> Q -> Prop) (f : nat -> Q) (len start : nat) :
  (forall i, (start <= i)%nat -> R (f i) (f (S i))) ->
  Sorted R (map f (seq start len)).
Proof.
  revert start. induction len as [|len IH]; intros start Hstep; simpl.
  - constructor.
  - constructor.
    + apply IH. intros i Hi. apply Hstep. lia.
    + destruct len; simpl; constructor. apply Hstep. lia.
Qed.

Lemma interpolate_step_up (weight target : Q) (n i : nat) :
  weight <= target ->
  NutritionAdvisor.interpolate weight target n i
  <= NutritionAdvisor.interpolate weight target n (S i).
Proof.
  intro H. unfold NutritionAdvisor.interpolate.
  pose proof (part_monotone n i (S i) (Nat.le_succ_diag_r i)) as Hp.
  nra.
Qed.

Lemma interpolate_step_down (weight target : Q) (n i : nat) :
  target <= weight ->
  NutritionAdvisor.interpolate weight target n (S i)
  <= NutritionAdvisor.interpolate weight target n i.
Proof.
  intro H. unfold NutritionAdvisor.interpolate.
  pose proof (part_monotone n i (S i) (Nat.le_succ_diag_r i)) as Hp.
  nra.
Qed.

Lemma interpolate_between (weight target : Q) (n i : nat) :
  (i <= n)%nat ->
  (weight <= target ->
     weight <= NutritionAdvisor.interpolate weight target n i <= target)
  /\ (target <= weight ->
        target <= NutritionAdvisor.interpolate weight target n i <= weight).
Proof.
  intro Hin. unfold NutritionAdvisor.interpolate.
  pose proof (part_nonneg n i) as H0.
  pose proof (part_at_most_one n i Hin) as H1.
  split; intro H; split; nra.
Qed.

Lemma interpolate_start (weight target : Q) (n : nat) :
  NutritionAdvisor.interpolate weight target n 0 == weight.
Proof.
  unfold NutritionAdvisor.interpolate. simpl. unfold Qdiv. ring.
Qed.

Lemma interpolate_end (weight target : Q) (n : nat) :
  (0 < n)%nat -> NutritionAdvisor.interpolate weight target n n == target.
Proof.
  intro Hn. unfold NutritionAdvisor.interpolate.
  rewrite (part_whole n Hn). ring.
Qed.

(** The weights of the chart are the current weight followed by the
    interpolated weight of every month. *)
Lemma weights_of_plan (months_needed : Q -> Q -> Z -> Z -> nat)
    (current_bmi target_bmi : Q) (weight height : Z) :
  weights weight
    (NutritionAdvisor.get_monthly_suggestions months_needed current_bmi
       target_bmi weight height)
  = inject_Z weight
    :: map (NutritionAdvisor.interpolate (inject_Z weight)
              (target_weight target_bmi height)
              (months_needed current_bmi target_bmi weight height))
           (seq 1 (months_needed current_bmi target_bmi weight height)).
Proof.
  unfold weights, NutritionAdvisor.get_monthly_suggestions, target_weight.
  cbv zeta. rewrite map_map. reflexivity.
Qed.

(** The months of the plan are numbered from 1. *)
Lemma months_of_plan (months_needed : Q -> Q -> Z -> Z -> nat)
    (current_bmi target_bmi : Q) (weight height : Z) :
  months
    (NutritionAdvisor.get_monthly_suggestions months_needed current_bmi
       target_bmi weight height)
  = seq 0 (S (months_needed current_bmi target_bmi weight height)).
Proof.
  unfold months, NutritionAdvisor.get_monthly_suggestions.
  cbv zeta. rewrite map_map. simpl. now rewrite map_id.
Qed.

(** C4: whatever the current BMI, the target BMI, the weight and the
    height, the weights of the plan, from the current weight through the
    target weight of every month, are monotone and stay between the
    current weight and the final target weight: non-increasing when the
    target weight is below the current weight, non-decreasing when it is
    above; and a plan of at least one month ends at the target weight. *)
Theorem monthly_targets_monotone (months_needed : Q -> Q -> Z -> Z -> nat)
    (current_bmi target_bmi : Q) (weight height : Z) :
  let plan :=
    NutritionAdvisor.get_monthly_suggestions months_needed current_bmi
      target_bmi weight height in
  let target := target_weight target_bmi height in
  (target <= inject_Z weight ->
     Sorted (fun a b => b <= a) (weights weight plan)
     /\ Forall (fun w => target <= w <= inject_Z weight) (weights weight plan))
  /\ (inject_Z weight <= target ->
        Sorted Qle (weights weight plan)
        /\ Forall (fun w => inject_Z weight <= w <= target) (weights weight plan))
  /\ (plan <> [] -> last (weights weight plan) 0 == target).
Proof.
  cbv zeta. rewrite weights_of_plan.
  set (n := months_needed current_bmi target_bmi weight height).
  set (w := inject_Z weight).
  set (t := target_weight target_bmi height).
  assert (Hin : forall x, In x (seq 1 n) -> (x <= n)%nat)
    by (intros x Hx; apply in_seq in Hx; lia).
  split; [|split].
  - intro H. split.
    + constructor.
      * apply sorted_map_seq. intros i _.
        now apply interpolate_step_down.
      * destruct n; simpl; constructor.
        rewrite <- (interpolate_start w t (S n)) at 2.
        now apply interpolate_step_down.
    + constructor; [split; [exact H | apply Qle_refl]|].
      apply Forall_forall. intros x Hx.
      apply in_map_iff in Hx. destruct Hx as (i & <- & Hi).
      now apply (interpolate_between w t n i (Hin i Hi)).
  - intro H. split.
    + constructor.
      * apply sorted_map_seq. intros i _.
        now apply interpolate_step_up.
      * destruct n; simpl; constructor.
        rewrite <- (interpolate_start w t (S n)) at 1.
        now apply interpolate_step_up.
    + constructor; [split; [apply Qle_refl | exact H]|].
      apply Forall_forall. intros x Hx.
      apply in_map_iff in Hx. destruct Hx as (i & <- & Hi).
      now apply (interpolate_between w t n i (Hin i Hi)).
  - intro Hne.
    unfold NutritionAdvisor.get_monthly_suggestions in Hne.
    cbv zeta in Hne. fold n in Hne.
    destruct n as [|k]; [now elim Hne|].
    rewrite seq_S, map_app, app_comm_cons.
    simpl map at 2. rewrite last_last.
    apply (interpolate_end w t (S k)). lia.
Qed.

(** ** The script: what a run calls and when *)

Lemma replay_app (tr1 tr2 : list event) (book : LogBook.t) :
  replay book (tr1 ++ tr2) = replay (replay book tr1) tr2.
Proof.
  revert book. induction tr1 as [|e tr1 IH]; intro book; [reflexivity|].
  destruct e; simpl; apply IH.
Qed.

Lemma guarded_app (tr1 tr2 : list event) (book : LogBook.t) :
  guarded book (tr1 ++ tr2)
  <-> guarded book tr1 /\ guarded (replay book tr1) tr2.
Proof.
  revert book. induction tr1 as [|e tr1 IH]; intro book; simpl; [tauto|].
  destruct e as [|c| | | | | | | |]; try apply IH.
  - destruct c; simpl; rewrite ?IH; tauto.
  - rewrite IH. tauto.
Qed.

(** A quiet trace leaves the book alone and is guarded. *)
Lemma quiet_trace (tr : list event) (book : LogBook.t) :
  forallb quiet tr = true -> replay book tr = book /\ guarded book tr.
Proof.
  induction tr as [|e tr IH]; simpl; [auto|].
  intro H. apply andb_prop in H. destruct H as [He Htr].
  destruct e; try discriminate; simpl; auto.
Qed.

Lemma sound_at_ret {A : Type} (a : A) (book : LogBook.t) :
  sound_at book (ret a).
Proof. split; simpl; auto. Qed.

Lemma sound_at_raise {A : Type} (book : LogBook.t) :
  sound_at book (@raise A).
Proof. split; simpl; auto. Qed.

Lemma sound_at_lift {A : Type} (o : option A) (book : LogBook.t) :
  sound_at book (lift o).
Proof. destruct o; [apply sound_at_ret | apply sound_at_raise]. Qed.

Lemma sound_at_emit (e : event) (book : LogBook.t) :
  quiet e = true -> sound_at book (emit e).
Proof.
  intro H. split; destruct e; try discriminate; simpl; auto.
Qed.

Lemma sound_at_analyze (logs : list LogBook.entry) (book : LogBook.t) :
  logs <> [] -> sound_at book (emit (Analyze logs)).
Proof. intro H. split; simpl; auto. Qed.

Lemma sound_at_add_entry (now : Z) (e : LogBook.log_entry) (book : LogBook.t) :
  sound_at book (add_entry now e).
Proof. split; simpl; auto. Qed.

Lemma sound_at_get_logs (days now : Z) (book : LogBook.t) :
  sound_at book (get_logs days now).
Proof. split; simpl; auto. Qed.

Lemma sound_at_get_stats (days now : Z) (book : LogBook.t) :
  LogBook.get_logs days now book <> [] -> sound_at book (get_stats days now).
Proof. intro H. split; simpl; auto. Qed.

Lemma sound_at_get_daily_aggregates (days now : Z) (book : LogBook.t) :
  LogBook.get_logs days now book <> [] ->
  sound_at book (get_daily_aggregates days now).
Proof. intro H. split; simpl; auto. Qed.

(** Sequencing: the second part runs from the book the first one
    leaves. *)
Lemma sound_at_bind {A B : Type} (m : App A) (k : A -> App B)
    (book : LogBook.t) :
  sound_at book m ->
  (forall a, result (m book) = Some a -> sound_at (book_of (m book)) (k a)) ->
  sound_at book (bind m k).
Proof.
  unfold sound_at, bind, result, book_of, trace.
  destruct (m book) as [[r book1] tr1]. simpl.
  intros [Hb Hg] Hk.
  destruct r as [a|]; [|now split].
  specialize (Hk a eq_refl).
  destruct (k a book1) as [[r2 book2] tr2]. simpl in *.
  destruct Hk as [Hb2 Hg2]. subst book1.
  split.
  - now rewrite replay_app.
  - apply guarded_app. now split.
Qed.

Lemma sound_at_for_each {A : Type} (xs : list A) (body : A -> App unit)
    (book : LogBook.t) :
  (forall x b, sound_at b (body x)) -> sound_at book (for_each xs body).
Proof.
  intro Hbody. revert book.
  induction xs as [|x xs IH]; intro book; simpl.
  - apply sound_at_ret.
  - apply sound_at_bind; [apply Hbody|]. intros _ _. apply IH.
Qed.

(** Showing a list of messages leaves the book alone. *)
Lemma book_of_for_each_emit {A : Type} (xs : list A) (f : A -> event)
    (book : LogBook.t) :
  book_of (for_each xs (fun x => emit (f x)) book) = book.
Proof.
  induction xs as [|x xs IH]; [reflexivity|].
  simpl. unfold bind. simpl.
  destruct (for_each xs (fun x0 => emit (f x0)) book) as [[r b] tr].
  exact IH.
Qed.

Lemma book_of_lift {A : Type} (o : option A) (book : LogBook.t) :
  book_of (lift o book) = book.
Proof. now destruct o. Qed.

Lemma book_of_emit (e : event) (book : LogBook.t) :
  book_of (emit e book) = book.
Proof. reflexivity. Qed.

Lemma book_of_get_logs (days now : Z) (book : LogBook.t) :
  book_of (get_logs days now book) = book.
Proof. reflexivity. Qed.

Lemma book_of_get_stats (days now : Z) (book : LogBook.t) :
  book_of (get_stats days now book) = book.
Proof. reflexivity. Qed.

Lemma book_of_get_daily_aggregates (days now : Z) (book : LogBook.t) :
  book_of (get_daily_aggregates days now book) = book.
Proof. reflexivity. Qed.

Lemma result_get_logs (days now : Z) (book : LogBook.t) :
  result (get_logs days now book) = Some (LogBook.get_logs days now book).
Proof. reflexivity. Qed.

Create HintDb sound.
Create Rewrite HintDb book.

#[local] Hint Rewrite @book_of_for_each_emit @book_of_lift book_of_emit
  book_of_get_logs book_of_get_stats book_of_get_daily_aggregates : book.

#[local] Hint Resolve sound_at_ret sound_at_raise sound_at_lift
  sound_at_add_entry sound_at_get_logs : sound.

(** One statement of the script: its own soundness, then the rest from
    the book it leaves. *)
Ltac sound_step :=
  match goal with
  | |- sound_at _ (bind (emit _) _) =>
      apply sound_at_bind;
      [apply sound_at_emit; reflexivity | intros _ _; autorewrite with book]
  | |- sound_at _ (bind (for_each _ (fun _ => emit _)) _) =>
      apply sound_at_bind;
      [apply sound_at_for_each; intros; apply sound_at_emit; reflexivity
      | intros _ _; autorewrite with book]
  | |- sound_at _ (bind _ _) =>
      apply sound_at_bind;
      [auto with sound | intros ? ?; autorewrite with book]
  | |- sound_at _ (emit _) => apply sound_at_emit; reflexivity
  | |- sound_at _ (for_each _ (fun _ => emit _)) =>
      apply sound_at_for_each; intros; apply sound_at_emit; reflexivity
  | |- sound_at _ _ => solve [auto with sound]
  end.

Section ScriptFacts.

Variable predict_calories :
  string -> Z -> Z -> Z -> Z -> Z -> Q -> string -> option Q.
Variable analyze_performance :
  list LogBook.entry -> Profile.t -> option analysis.
Variable months_needed : Q -> Q -> Z -> Z -> nat.
Variable now : Z.

Lemma sidebar_sound (inp : inputs) (book : LogBook.t) :
  sound_at book (sidebar inp).
Proof. unfold sidebar. cbv zeta. repeat sound_step. Qed.

Lemma tab1_sound (p : Profile.t) (inp : inputs) (book : LogBook.t) :
  sound_at book (tab1 predict_calories now p inp).
Proof.
  unfold tab1. cbv zeta. sound_step.
  destruct (calculate_clicked inp); repeat sound_step.
Qed.

Lemma tab2_sound (p : Profile.t) (inp : inputs) (book : LogBook.t) :
  sound_at book (tab2 analyze_performance now p inp).
Proof.
  unfold tab2. cbv zeta.
  set (days_filter := St.selectbox _ _ _ _).
  apply sound_at_bind; [apply sound_at_get_logs|].
  intros logs_df Hlogs. rewrite result_get_logs in Hlogs.
  injection Hlogs as <-. autorewrite with book.
  destruct (LogBook.get_logs days_filter now book) as [|e logs] eqn:E.
  - simpl. sound_step.
  - assert (Hne : LogBook.get_logs days_filter now book <> [])
      by (rewrite E; discriminate).
    simpl negb. cbv iota.
    apply sound_at_bind; [now apply sound_at_get_stats|].
    intros stats _. autorewrite with book.
    do 4 sound_step.
    apply sound_at_bind; [now apply sound_at_get_daily_aggregates|].
    intros daily_data _. autorewrite with book.
    do 3 sound_step.
    apply sound_at_bind; [apply sound_at_analyze; discriminate|].
    intros _ _. autorewrite with book.
    repeat sound_step.
Qed.

Lemma tab3_sound (p : Profile.t) (book : LogBook.t) :
  sound_at book (tab3 p).
Proof. unfold tab3. repeat sound_step. Qed.

Lemma tab4_sound (book : LogBook.t) : sound_at book tab4.
Proof. unfold tab4. repeat sound_step. Qed.

Lemma tab5_sound (p : Profile.t) (inp : inputs) (book : LogBook.t) :
  sound_at book (tab5 months_needed p inp).
Proof.
  unfold tab5. cbv zeta. do 5 sound_step.
  destruct (generate_plan_clicked inp); repeat sound_step.
Qed.

Lemma quick_stats_sound (book : LogBook.t) :
  sound_at book (quick_stats now).
Proof.
  unfold quick_stats.
  apply sound_at_bind; [apply sound_at_get_logs|].
  intros logs Hlogs. rewrite result_get_logs in Hlogs.
  injection Hlogs as <-. autorewrite with book.
  destruct (LogBook.get_logs 7 now book) as [|e logs] eqn:E.
  - simpl. sound_step.
  - assert (Hne : LogBook.get_logs 7 now book <> [])
      by (rewrite E; discriminate).
    simpl Nat.eqb. cbv iota.
    apply sound_at_bind; [now apply sound_at_get_stats|].
    intros stats _. autorewrite with book.
    repeat sound_step.
Qed.

Lemma main_sound (inp : inputs) (book : LogBook.t) :
  sound_at book (main predict_calories analyze_performance months_needed now inp).
Proof.
  unfold main.
  apply sound_at_bind; [apply sidebar_sound|]. intros p _.
  apply sound_at_bind; [apply tab1_sound|]. intros _ _.
  apply sound_at_bind; [apply tab2_sound|]. intros _ _.
  apply sound_at_bind; [apply tab3_sound|]. intros _ _.
  apply sound_at_bind; [apply tab4_sound|]. intros _ _.
  apply sound_at_bind; [apply tab5_sound|]. intros _ _.
  apply quick_stats_sound.
Qed.

End ScriptFacts.

(** A trace only replays calls of the book, so it only extends it. *)
Lemma replay_extends (tr : list event) (book : LogBook.t) :
  exists added, replay book tr = book ++ added.
Proof.
  revert book. induction tr as [|e tr IH]; intro book.
  - exists []. simpl. now rewrite app_nil_r.
  - destruct e as [|c| | | | | | | |]; simpl; try apply IH.
    destruct (IH (fst (LogBook.step book c))) as [added ->].
    destruct (step_appends book c) as [-> | [e ->]].
    + now exists added.
    + exists (e :: added). now rewrite <- app_assoc.
Qed.

(** A run of the script keeps every entry of the book in its place. *)
Lemma main_extends_book
    (predict_calories : string -> Z -> Z -> Z -> Z -> Z -> Q -> string -> option Q)
    (analyze_performance : list LogBook.entry -> Profile.t -> option analysis)
    (months_needed : Q -> Q -> Z -> Z -> nat) (now : Z)
    (inp : inputs) (book : LogBook.t) :
  exists added,
    book_of (main predict_calories analyze_performance months_needed now inp book)
    = book ++ added.
Proof.
  destruct (main_sound predict_calories analyze_performance months_needed now
              inp book) as [-> _].
  apply replay_extends.
Qed.

(** C8: when [get_logs days] returns no entries the page shows its empty
    state and computes nothing, in tab 2 and in the quick stats of the
    sidebar alike, and neither fails; and in every run of the script
    [get_stats], [get_daily_aggregates] and the analysis are reached only
    with a non-empty list of filtered logs. *)
Theorem empty_logs_skip_computation
    (predict_calories : string -> Z -> Z -> Z -> Z -> Z -> Q -> string -> option Q)
    (analyze_performance : list LogBook.entry -> Profile.t -> option analysis)
    (months_needed : Q -> Q -> Z -> Z -> nat) (now : Z)
    (p : Profile.t) (inp : inputs) (book : LogBook.t) :
  let days_filter :=
    St.selectbox [7; 14; 30; 60; 90]%Z 2 0%Z (days_filter_raw inp) in
  let run := main predict_calories analyze_performance months_needed now inp book in
  (LogBook.get_logs days_filter now book = [] ->
     tab2 analyze_performance now p inp book
     = (Some tt, book,
        [ BookCall (LogBook.GetLogs days_filter now);
          Info "No logs yet! Start by predicting your calorie burn in the first tab." ]))
  /\ (LogBook.get_logs 7 now book = [] ->
        quick_stats now book
        = (Some tt, book,
           [ BookCall (LogBook.GetLogs 7 now);
             Info "No activity this week. Start logging!" ]))
  /\ guarded book (trace run)
  /\ book_of run = replay book (trace run).
Proof.
  cbv zeta. split; [|split; [|split]].
  - intro H. unfold tab2, bind, get_logs. cbv zeta. rewrite H. reflexivity.
  - intro H. unfold quick_stats, bind, get_logs. rewrite H. reflexivity.
  - apply main_sound.
  - apply main_sound.
Qed.

Lemma empty_logs_skip_computation_witness :
  tab2 (fun _ _ => None) 1700000 sample_profile untouched []
  = (Some tt, [],
     [ BookCall (LogBook.GetLogs 30 1700000);
       Info "No logs yet! Start by predicting your calorie burn in the first tab." ]).
Proof.
  apply (proj1 (empty_logs_skip_computation
                  (fun _ _ _ _ _ _ _ _ => Some 250) (fun _ _ => None)
                  (fun _ _ _ _ => 4%nat) 1700000 sample_profile untouched [])).
  reflexivity.
Defined.

(** The guard is not an empty promise: statistics asked of an empty book
    break it. *)
Example unguarded_call : ~ guarded [] [BookCall (LogBook.GetStats 7 1700000)].
Proof. simpl. intros [H _]. now apply H. Qed.

(** The backend methods of a run from an empty book, untouched and with
    both buttons pressed. *)
Example calls_of_a_first_visit :
  flat_map method_of
    (trace (main (fun _ _ _ _ _ _ _ _ => Some 250)
              (fun _ _ => Some {| trends := []; insights := [];
                                  recommendations := [] |})
              (fun _ _ _ _ => 4%nat) 1700000 untouched []))
  = [ "get_bmi_category"; "get_logs"; "get_nutrition_tips";
      "get_recommended_exercises"; "get_logs" ]%string.
Proof. vm_compute. reflexivity. Qed.

Example calls_after_a_prediction :
  flat_map method_of
    (trace (main (fun _ _ _ _ _ _ _ _ => Some 250)
              (fun _ _ => Some {| trends := []; insights := [];
                                  recommendations := [] |})
              (fun _ _ _ _ => 4%nat) 1700000 pressed []))
  = [ "get_bmi_category"; "predict_calories"; "add_entry"; "get_logs";
      "get_stats"; "get_daily_aggregates"; "analyze_performance";
      "get_nutrition_tips"; "get_recommended_exercises";
      "get_monthly_suggestions"; "get_logs"; "get_stats" ]%string.
Proof. vm_compute. reflexivity. Qed.

Lemma monthly_targets_monotone_witness :
  Sorted (fun a b => b <= a)
    (weights 80
       (NutritionAdvisor.get_monthly_suggestions (fun _ _ _ _ => 4%nat)
          (8000 # 289) 22 80 170)).
Proof.
  apply (proj1 (monthly_targets_monotone (fun _ _ _ _ => 4%nat)
                  (8000 # 289) 22 80 170)).
  apply Qle_bool_iff. reflexivity.
Defined.

Example sample_plan :
  map Qred
    (weights 80
       (NutritionAdvisor.get_monthly_suggestions (fun _ _ _ _ => 4%nat)
          (8000 # 289) 22 80 170))
  = [80; 15179 # 200; 7179 # 100; 13537 # 200; 3179 # 50].
Proof. vm_compute. reflexivity. Qed.

(** Tab 1 raises only where the predictor does: the Cal/min division
    never fails a run. *)
Lemma tab1_fails_only_in_predictor
    (predict_calories : string -> Z -> Z -> Z -> Z -> Z -> Q -> string -> option Q)
    (now : Z) (p : Profile.t) (inp : inputs) (book : LogBook.t) :
  result (tab1 predict_calories now p inp book) = None ->
  calculate_clicked inp = true
  /\ predict_calories (Profile.gender p) (Profile.age p) (Profile.height p)
       (Profile.weight p) (duration_slider (duration_raw inp))
       (St.slider 60 200 120 (heart_rate_raw inp))
       (St.number_inputf 35.0 42.0 37.0 (body_temp_raw inp))
       (St.selectbox ["Running"; "Walking"; "Cycling"; "Swimming"; "Gym"]%string
          0 ""%string (exercise_type_raw inp))
     = None.
Proof.
  unfold tab1. cbv zeta.
  destruct (calculate_clicked inp); [|discriminate].
  intro H. split; [reflexivity|].
  destruct (predict_calories _ _ _ _ _ _ _ _) as [calories|] eqn:E;
    [|reflexivity].
  exfalso. revert H.
  unfold bind, emit, lift, add_entry, ret, result.
  rewrite cal_per_min_nonzero
    by (pose proof (duration_slider_range (duration_raw inp)); lia).
  discriminate.
Qed.

(** ** The rest of the page: widgets and derived numbers *)

Lemma min_spec (x y : Q) :
  (y < x /\ Py.min x y = y) \/ (x <= y /\ Py.min x y = x).
Proof.
  unfold Py.min. destruct (Py.lt y x) eqn:E.
  - left. split; [now apply lt_spec | reflexivity].
  - right. split; [now apply lt_false | reflexivity].
Qed.

Lemma max_spec (x y : Q) :
  (x < y /\ Py.max x y = y) \/ (y <= x /\ Py.max x y = x).
Proof.
  unfold Py.max. destruct (Py.gt y x) eqn:E.
  - left. split; [now apply gt_spec | reflexivity].
  - right. split; [now apply gt_false | reflexivity].
Qed.

Lemma clampf_range (lo hi v : Q) :
  lo <= hi -> lo <= St.clampf lo hi v <= hi.
Proof.
  intro H. unfold St.clampf.
  destruct (min_spec hi v) as [[H1 ->] | [H1 ->]];
    [destruct (max_spec lo v) as [[H2 ->] | [H2 ->]]
    |destruct (max_spec lo hi) as [[H2 ->] | [H2 ->]]];
    split; lra.
Qed.

Lemma number_inputf_range (lo hi dflt : Q) (raw : option Q) :
  lo <= dflt <= hi -> lo <= St.number_inputf lo hi dflt raw <= hi.
Proof.
  intro H. unfold St.number_inputf. destruct raw; [|exact H].
  apply clampf_range. lra.
Qed.

(** A select box returns one of its options. *)
Lemma selectbox_in {A : Type} (options : list A) (index : nat) (dflt : A)
    (raw : option nat) :
  (index < List.length options)%nat ->
  In (St.selectbox options index dflt raw) options.
Proof.
  intro H. unfold St.selectbox.
  destruct raw as [i|]; [|now apply nth_In].
  destruct (Nat.lt_ge_cases i (List.length options)) as [Hi | Hi].
  - now apply nth_In.
  - rewrite nth_overflow by exact Hi. now apply nth_In.
Qed.

(** The BMI of a weight of 30 to 200 kg at a height of 100 to 250 cm. *)
Lemma bmi_bounds (weight height : Z) :
  (30 <= weight <= 200)%Z -> (100 <= height <= 250)%Z ->
  4.8 <= inject_Z weight / (inject_Z height / 100) ^ 2 <= 200.
Proof.
  intros Hw Hh.
  assert (Hw1 : 30 <= inject_Z weight)
    by (change 30 with (inject_Z 30); rewrite <- Zle_Qle; lia).
  assert (Hw2 : inject_Z weight <= 200)
    by (change 200 with (inject_Z 200); rewrite <- Zle_Qle; lia).
  assert (Hh1 : 100 <= inject_Z height)
    by (change 100 with (inject_Z 100); rewrite <- Zle_Qle; lia).
  assert (Hh2 : inject_Z height <= 250)
    by (change 250 with (inject_Z 250); rewrite <- Zle_Qle; lia).
  set (w := inject_Z weight) in *. set (h := inject_Z height) in *.
  assert (Hm1 : 1 <= (h / 100) ^ 2).
  { setoid_replace ((h / 100) ^ 2) with (h * h / 10000) by (simpl; field).
    apply Qle_shift_div_l; [reflexivity | nra]. }
  assert (Hm2 : (h / 100) ^ 2 <= 6.25).
  { setoid_replace ((h / 100) ^ 2) with (h * h / 10000) by (simpl; field).
    apply Qle_shift_div_r; [reflexivity | nra]. }
  set (m := (h / 100) ^ 2) in *.
  split.
  - apply Qle_shift_div_l; [lra | nra].
  - apply Qle_shift_div_r; [lra | nra].
Qed.

(** X1: the sidebar never raises; it stores a profile whose gender is
    one of the two options, whose age, height and weight are in the
    ranges of their inputs, and whose BMI is between 4.8 and 200. *)
Theorem sidebar_profile_in_range (inp : inputs) (book : LogBook.t) :
  let p := sidebar_profile inp in
  sidebar inp book
  = (Some p, book,
     [Advise "get_bmi_category"; Metric "Current BMI" (Number (Profile.bmi p))])
  /\ In (Profile.gender p) ["Male"; "Female"]%string
  /\ (10 <= Profile.age p <= 100)%Z
  /\ (100 <= Profile.height p <= 250)%Z
  /\ (30 <= Profile.weight p <= 200)%Z
  /\ 4.8 <= Profile.bmi p <= 200.
Proof.
  cbv zeta.
  assert (Ha : (10 <= Profile.age (sidebar_profile inp) <= 100)%Z)
    by (apply number_input_range; lia).
  assert (Hh : (100 <= Profile.height (sidebar_profile inp) <= 250)%Z)
    by (apply number_input_range; lia).
  assert (Hw : (30 <= Profile.weight (sidebar_profile inp) <= 200)%Z)
    by (apply number_input_range; lia).
  split; [|split; [|split; [|split; [|split]]]]; try assumption.
  - unfold sidebar, sidebar_profile. cbv zeta.
    unfold bind. rewrite sidebar_bmi_defined. reflexivity.
  - apply selectbox_in. simpl. lia.
  - now apply bmi_bounds.
Qed.

Lemma inject_Z_between (lo hi z : Z) :
  (lo <= z <= hi)%Z -> inject_Z lo <= inject_Z z <= inject_Z hi.
Proof. intro H. rewrite <- !Zle_Qle. exact H. Qed.

(** The ranges of the three numbers of the sidebar. *)
Lemma sidebar_profile_in_range_aux (inp : inputs) :
  (10 <= Profile.age (sidebar_profile inp) <= 100)%Z
  /\ (100 <= Profile.height (sidebar_profile inp) <= 250)%Z
  /\ (30 <= Profile.weight (sidebar_profile inp) <= 200)%Z.
Proof.
  repeat split; apply number_input_range; lia.
Qed.

(** The default of the Target BMI input is inside the range of the
    input. *)
Lemma target_bmi_value_range (bmi : Q) :
  18.5 <= target_bmi_value bmi <= 24.9.
Proof.
  unfold target_bmi_value.
  set (v := if Py.le 18.5 bmi && Py.le bmi 24.9 then bmi else 22.0).
  destruct (max_spec 18.5 v) as [[H1 ->] | [H1 ->]].
  - destruct (min_spec 24.9 v) as [[H2 ->] | [H2 ->]]; split; lra.
  - destruct (min_spec 24.9 18.5) as [[H2 ->] | [H2 ->]]; split; lra.
Qed.

(** X3: the default of the Target BMI input is the current BMI when
    that is between 18.5 and 24.9 and 22.0 otherwise; the [min] and
    [max] around it change nothing, and the default and the target BMI
    the input returns are always inside the range 18.5 to 24.9 that the
    input declares. *)
Theorem target_bmi_default (bmi : Q) (raw : option Q) :
  target_bmi_value bmi
  == (if Py.le 18.5 bmi && Py.le bmi 24.9 then bmi else 22.0)
  /\ (18.5 <= bmi <= 24.9 -> target_bmi_value bmi == bmi)
  /\ (bmi < 18.5 \/ 24.9 < bmi -> target_bmi_value bmi == 22.0)
  /\ 18.5 <= target_bmi_value bmi <= 24.9
  /\ 18.5 <= target_bmi bmi raw <= 24.9.
Proof.
  assert (Hv : target_bmi_value bmi
               == (if Py.le 18.5 bmi && Py.le bmi 24.9 then bmi else 22.0)).
  { unfold target_bmi_value.
    destruct (Py.le 18.5 bmi) eqn:E1; simpl andb.
    - destruct (Py.le bmi 24.9) eqn:E2.
      + apply le_spec in E1, E2.
        destruct (max_spec 18.5 bmi) as [[H1 ->] | [H1 ->]].
        * destruct (min_spec 24.9 bmi) as [[H2 ->] | [H2 ->]]; lra.
        * destruct (min_spec 24.9 18.5) as [[H2 ->] | [H2 ->]]; lra.
      + vm_compute. reflexivity.
    - vm_compute. reflexivity. }
  split; [exact Hv|]. split; [|split; [|split]].
  - intros [H1 H2]. rewrite Hv.
    apply le_spec in H1, H2. rewrite H1, H2. reflexivity.
  - intro H. rewrite Hv.
    destruct (Py.le 18.5 bmi) eqn:E1; simpl andb; [|reflexivity].
    destruct (Py.le bmi 24.9) eqn:E2; [|reflexivity].
    apply le_spec in E1, E2. exfalso. destruct H; lra.
  - apply target_bmi_value_range.
  - apply number_inputf_range, target_bmi_value_range.
Qed.

Lemma target_bmi_default_witness : target_bmi_value 30 == 22.0.
Proof.
  apply (proj1 (proj2 (proj2 (target_bmi_default 30 None)))).
  right. reflexivity.
Defined.

Lemma height_m2_nonneg (height : Z) : 0 <= (inject_Z height / 100) ^ 2.
Proof.
  setoid_replace ((inject_Z height / 100) ^ 2)
    with ((inject_Z height / 100) * (inject_Z height / 100)) by (simpl; ring).
  generalize (inject_Z height / 100). intro x. nra.
Qed.

(** X4: whatever the BMI, the target BMI typed and the height, the
    target weight of tab 5 lies in the ideal weight range of tab 3. *)
Theorem target_weight_in_ideal_range (bmi : Q) (raw : option Q) (height : Z) :
  ideal_min height
  <= target_weight (target_bmi bmi raw) height
  <= ideal_max height.
Proof.
  pose proof (number_inputf_range 18.5 24.9 (target_bmi_value bmi) raw
                (target_bmi_value_range bmi)) as Ht.
  pose proof (height_m2_nonneg height) as Hm.
  unfold ideal_min, ideal_max, target_weight. fold (target_bmi bmi raw) in Ht.
  revert Ht Hm.
  generalize (target_bmi bmi raw). generalize ((inject_Z height / 100) ^ 2).
  intros m t Ht Hm. split; nra.
Qed.

(** X5: the delta of the Weight to Adjust metric is, in both of its
    branches, the target weight minus the current weight: negative when
    and only when the weight is above the target, and of the size the
    metric itself shows. *)
Theorem weight_delta_is_signed_adjustment (weight : Z) (target : Q) :
  let diff := weight_diff weight target in
  weight_delta diff == target - inject_Z weight
  /\ Qabs (weight_delta diff) == Qabs diff
  /\ (weight_delta diff < 0 <-> target < inject_Z weight).
Proof.
  cbv zeta. unfold weight_diff.
  generalize (inject_Z weight). intro w.
  assert (H : weight_delta (w - target) == target - w).
  { unfold weight_delta. destruct (Py.gt (w - target) 0) eqn:E.
    - ring.
    - apply gt_false in E. rewrite Qabs_neg by exact E. ring. }
  split; [exact H|]. split.
  - rewrite H.
    setoid_replace (target - w) with (- (w - target)) by ring.
    apply Qabs_opp.
  - rewrite H. split; intro; lra.
Qed.

(** ** The rest of the page: what a run does, tab by tab *)

(** Showing a list of messages shows them in their order and nothing
    else. *)
Lemma for_each_emit {A : Type} (xs : list A) (f : A -> event)
    (book : LogBook.t) :
  for_each xs (fun x => emit (f x)) book = (Some tt, book, map f xs).
Proof.
  induction xs as [|x xs IH]; [reflexivity|].
  cbn [for_each]. unfold bind.
  change (emit (f x) book) with (Some tt, book, [f x]).
  cbv beta iota. rewrite IH. reflexivity.
Qed.

(** The same with the body of the loop laid open. *)
Lemma for_each_shown {A : Type} (xs : list A) (f : A -> event)
    (book : LogBook.t) :
  for_each xs (fun x b => (Some tt, b, [f x])) book = (Some tt, book, map f xs).
Proof. exact (for_each_emit xs f book). Qed.

Lemma sidebar_runs (inp : inputs) (book : LogBook.t) :
  sidebar inp book
  = (Some (sidebar_profile inp), book,
     [ Advise "get_bmi_category";
       Metric "Current BMI" (Number (Profile.bmi (sidebar_profile inp))) ]).
Proof.
  unfold sidebar, sidebar_profile. cbv zeta.
  unfold bind. rewrite sidebar_bmi_defined. reflexivity.
Qed.

(** The duration of a prediction is never 0. *)
Lemma tab1_cal_per_min (inp : inputs) (calories : Q) :
  cal_per_min calories (duration_slider (duration_raw inp))
  = Some (calories / inject_Z (duration_slider (duration_raw inp))).
Proof.
  apply cal_per_min_nonzero.
  pose proof (duration_slider_range (duration_raw inp)). lia.
Qed.

Section PageFacts.

Variable predict_calories :
  string -> Z -> Z -> Z -> Z -> Z -> Q -> string -> option Q.
Variable analyze_performance :
  list LogBook.entry -> Profile.t -> option analysis.
Variable months_needed : Q -> Q -> Z -> Z -> nat.
Variable now : Z.

(** X7: when the button of tab 1 is pressed and the predictor answers,
    the run shows the estimate, appends to the book exactly one entry,
    stamped with the clock and holding the estimate, the values of the
    four widgets of the tab and the weight and BMI of the profile, and
    then shows the calories, the duration and their quotient; it does
    not fail. *)
Theorem tab1_logs_the_prediction (p : Profile.t) (inp : inputs)
    (book : LogBook.t) (calories : Q) :
  calculate_clicked inp = true ->
  tab1_prediction predict_calories p inp = Some calories ->
  tab1 predict_calories now p inp book
  = (Some tt,
     book ++ [ {| LogBook.timestamp := now;
                  LogBook.data := tab1_entry p inp calories |} ],
     [ Info "Your Stats"; Predict; Success "Estimated Calories Burned";
       BookCall (LogBook.AddEntry now (tab1_entry p inp calories));
       Metric "Calories" (Number calories);
       Metric "Duration"
         (Number (inject_Z (duration_slider (duration_raw inp))));
       Metric "Cal/min"
         (Number (calories / inject_Z (duration_slider (duration_raw inp)))) ]).
Proof.
  intros Hc Hp. unfold tab1_prediction in Hp.
  unfold tab1. cbv zeta. rewrite Hc.
  unfold bind, emit, lift, add_entry, ret.
  rewrite Hp. rewrite tab1_cal_per_min.
  reflexivity.
Qed.

(** X8: tab 1 writes to the book only after an estimate.  Without the
    button pressed the run calls neither the predictor nor the book;
    when the predictor raises, the run stops there, before anything is
    logged. *)
Theorem tab1_logs_nothing_otherwise (p : Profile.t) (inp : inputs)
    (book : LogBook.t) :
  (calculate_clicked inp = false ->
     tab1 predict_calories now p inp book
     = (Some tt, book, [Info "Your Stats"]))
  /\ (calculate_clicked inp = true ->
      tab1_prediction predict_calories p inp = None ->
        tab1 predict_calories now p inp book
        = (None, book, [Info "Your Stats"; Predict])).
Proof.
  split.
  - intro Hc. unfold tab1. cbv zeta. rewrite Hc. reflexivity.
  - intros Hc Hp. unfold tab1_prediction in Hp.
    unfold tab1. cbv zeta. rewrite Hc.
    unfold bind, emit, lift, raise.
    rewrite Hp. reflexivity.
Qed.

(** Result and book of tab 1, whatever it shows. *)
Lemma tab1_outcome (p : Profile.t) (inp : inputs) (book : LogBook.t) :
  exists tr,
    tab1 predict_calories now p inp book
    = (if calculate_clicked inp
       then match tab1_prediction predict_calories p inp with
            | Some _ => Some tt
            | None => None
            end
       else Some tt,
       match (if calculate_clicked inp
              then tab1_prediction predict_calories p inp else None) with
       | Some calories =>
           book ++ [ {| LogBook.timestamp := now;
                        LogBook.data := tab1_entry p inp calories |} ]
       | None => book
       end,
       tr).
Proof.
  unfold tab1, tab1_prediction. cbv zeta.
  destruct (calculate_clicked inp); [|eexists; reflexivity].
  unfold bind, emit, lift, add_entry, ret, raise.
  destruct (predict_calories _ _ _ _ _ _ _ _) as [calories|];
    [|eexists; reflexivity].
  rewrite tab1_cal_per_min. eexists. reflexivity.
Qed.

(** X9: when the window of tab 2 holds entries and the analysis
    answers, the run of the tab reads the logs, then the statistics and
    shows its four metrics, then the daily aggregates and shows the
    three charts, then shows the trends as infos, the insights as
    successes and the recommendations as warnings, each list in its
    order, and last the table of the recent activity; it leaves the book
    as it is. *)
Theorem tab2_with_logs (p : Profile.t) (inp : inputs) (book : LogBook.t)
    (a : analysis) :
  let days := days_filter inp in
  let logs := LogBook.get_logs days now book in
  let stats := LogBook.get_stats days now book in
  logs <> [] ->
  analyze_performance logs p = Some a ->
  tab2 analyze_performance now p inp book
  = (Some tt, book,
     [ BookCall (LogBook.GetLogs days now);
       BookCall (LogBook.GetStats days now);
       Metric "Total Calories" (Number (LogBook.total_calories stats));
       Metric "Avg Calories/Session" (Number (LogBook.avg_calories stats));
       Metric "Total Sessions" (Count (LogBook.total_sessions stats));
       Metric "Total Duration"
         (Number (inject_Z (LogBook.total_duration stats)));
       BookCall (LogBook.GetDailyAggregates days now);
       Chart "Daily Calorie Burn Trend"
         (map LogBook.day_calories
            (LogBook.get_daily_aggregates days now book));
       Chart "Exercise Type Distribution" [];
       Chart "Heart Rate Distribution"
         (map (fun e => inject_Z (LogBook.heart_rate (LogBook.data e))) logs);
       Analyze logs ]
     ++ map Info (trends a)
     ++ map Success (insights a)
     ++ map Warning (recommendations a)
     ++ [ Table (tail 10 logs) ]).
Proof.
  cbv zeta. unfold days_filter. intros Hne Ha.
  unfold tab2. cbv zeta.
  set (days := St.selectbox _ _ _ _) in *.
  unfold bind at 1. unfold get_logs at 1.
  destruct (LogBook.get_logs days now book) as [|e logs] eqn:E;
    [now elim Hne|].
  change (negb (List.length (e :: logs) =? 0)%nat) with true.
  cbv beta iota.
  unfold bind, get_stats, get_daily_aggregates, emit, lift.
  rewrite Ha. unfold ret.
  rewrite !for_each_shown.
  reflexivity.
Qed.

(** X10: when the analysis raises, the run of tab 2 ends with the call
    of the analysis: the statistics and the charts are on the page, the
    trends, insights, recommendations and the table of the recent
    activity are not, and the book is as it was. *)
Theorem tab2_when_analysis_fails (p : Profile.t) (inp : inputs)
    (book : LogBook.t) :
  let days := days_filter inp in
  let logs := LogBook.get_logs days now book in
  let stats := LogBook.get_stats days now book in
  logs <> [] ->
  analyze_performance logs p = None ->
  tab2 analyze_performance now p inp book
  = (None, book,
     [ BookCall (LogBook.GetLogs days now);
       BookCall (LogBook.GetStats days now);
       Metric "Total Calories" (Number (LogBook.total_calories stats));
       Metric "Avg Calories/Session" (Number (LogBook.avg_calories stats));
       Metric "Total Sessions" (Count (LogBook.total_sessions stats));
       Metric "Total Duration"
         (Number (inject_Z (LogBook.total_duration stats)));
       BookCall (LogBook.GetDailyAggregates days now);
       Chart "Daily Calorie Burn Trend"
         (map LogBook.day_calories
            (LogBook.get_daily_aggregates days now book));
       Chart "Exercise Type Distribution" [];
       Chart "Heart Rate Distribution"
         (map (fun e => inject_Z (LogBook.heart_rate (LogBook.data e))) logs);
       Analyze logs ]).
Proof.
  cbv zeta. unfold days_filter. intros Hne Ha.
  unfold tab2. cbv zeta.
  set (days := St.selectbox _ _ _ _) in *.
  unfold bind at 1. unfold get_logs at 1.
  destruct (LogBook.get_logs days now book) as [|e logs] eqn:E;
    [now elim Hne|].
  change (negb (List.length (e :: logs) =? 0)%nat) with true.
  cbv beta iota.
  unfold bind, get_stats, get_daily_aggregates, emit, lift.
  rewrite Ha. reflexivity.
Qed.

End PageFacts.

(** ** The rest of the page: a whole run *)

(** Tab 2 over a window that holds entries, up to the analysis. *)
Ltac enter_tab2 days e logs E :=
  unfold tab2; cbv zeta;
  set (days := St.selectbox _ _ _ _) in *;
  unfold bind at 1; unfold get_logs at 1;
  destruct (LogBook.get_logs days _ _) as [|e logs] eqn:E;
  [ | change (negb (List.length (e :: logs) =? 0)%nat) with true;
      cbv beta iota;
      unfold bind, get_stats, get_daily_aggregates, emit, lift ].

Section RunFacts.

Variable predict_calories :
  string -> Z -> Z -> Z -> Z -> Z -> Q -> string -> option Q.
Variable analyze_performance :
  list LogBook.entry -> Profile.t -> option analysis.
Variable months_needed : Q -> Q -> Z -> Z -> nat.
Variable now : Z.

(** Result and book of tab 2, whatever it shows. *)
Lemma tab2_outcome (p : Profile.t) (inp : inputs) (book : LogBook.t) :
  exists tr,
    tab2 analyze_performance now p inp book
    = (match LogBook.get_logs (days_filter inp) now book with
       | [] => Some tt
       | logs => match analyze_performance logs p with
                 | Some _ => Some tt
                 | None => None
                 end
       end, book, tr).
Proof.
  unfold days_filter. enter_tab2 days e logs E.
  - eexists. reflexivity.
  - destruct (analyze_performance (e :: logs) p) as [a|].
    + unfold ret. rewrite !for_each_shown. eexists. reflexivity.
    + eexists. reflexivity.
Qed.

Lemma tab3_outcome (p : Profile.t) (book : LogBook.t) :
  exists tr, tab3 p book = (Some tt, book, tr).
Proof. eexists. reflexivity. Qed.

Lemma tab4_outcome (book : LogBook.t) :
  exists tr, tab4 book = (Some tt, book, tr).
Proof. eexists. reflexivity. Qed.

Lemma tab5_outcome (p : Profile.t) (inp : inputs) (book : LogBook.t) :
  exists tr, tab5 months_needed p inp book = (Some tt, book, tr).
Proof.
  unfold tab5. cbv zeta.
  destruct (generate_plan_clicked inp); eexists; reflexivity.
Qed.

Lemma quick_stats_outcome (book : LogBook.t) :
  exists tr, quick_stats now book = (Some tt, book, tr).
Proof.
  unfold quick_stats, bind, get_logs.
  destruct (LogBook.get_logs 7 now book); eexists; reflexivity.
Qed.

(** Sequencing after a part that returned. *)
Lemma bind_returned {A B : Type} (m : App A) (k : A -> App B)
    (book book1 : LogBook.t) (a : A) (tr1 : list event) :
  m book = (Some a, book1, tr1) ->
  bind m k book
  = (result (k a book1), book_of (k a book1), tr1 ++ trace (k a book1)).
Proof.
  intro H. unfold bind. rewrite H.
  destruct (k a book1) as [[r b] tr]. reflexivity.
Qed.

(** Sequencing after a part that raised. *)
Lemma bind_raised {A B : Type} (m : App A) (k : A -> App B)
    (book book1 : LogBook.t) (tr1 : list event) :
  m book = (None, book1, tr1) ->
  bind m k book = (None, book1, tr1).
Proof. intro H. unfold bind. now rewrite H. Qed.

(** Result and book of the tabs 3 to 5 and the quick stats in a row:
    they return and leave the book alone. *)
Lemma rest_outcome (p : Profile.t) (inp : inputs) (book : LogBook.t) :
  exists tr,
    (tab3 p ;;; tab4 ;;; tab5 months_needed p inp ;;; quick_stats now) book
    = (Some tt, book, tr).
Proof.
  destruct (tab3_outcome p book) as [tr3 E3].
  destruct (tab4_outcome book) as [tr4 E4].
  destruct (tab5_outcome p inp book) as [tr5 E5].
  destruct (quick_stats_outcome book) as [tr6 E6].
  rewrite (bind_returned _ _ _ _ _ _ E3).
  rewrite (bind_returned _ _ _ _ _ _ E4).
  rewrite (bind_returned _ _ _ _ _ _ E5).
  rewrite E6. eexists. reflexivity.
Qed.

(** Result and book of a whole run. *)
Lemma main_outcome (inp : inputs) (book : LogBook.t) :
  let p := sidebar_profile inp in
  let prediction :=
    if calculate_clicked inp
    then tab1_prediction predict_calories p inp else None in
  let book1 :=
    match prediction with
    | Some calories =>
        book ++ [ {| LogBook.timestamp := now;
                     LogBook.data := tab1_entry p inp calories |} ]
    | None => book
    end in
  exists tr,
    main predict_calories analyze_performance months_needed now inp book
    = (if calculate_clicked inp
       then match tab1_prediction predict_calories p inp with
            | Some _ =>
                match LogBook.get_logs (days_filter inp) now book1 with
                | [] => Some tt
                | logs => match analyze_performance logs p with
                          | Some _ => Some tt
                          | None => None
                          end
                end
            | None => None
            end
       else match LogBook.get_logs (days_filter inp) now book1 with
            | [] => Some tt
            | logs => match analyze_performance logs p with
                      | Some _ => Some tt
                      | None => None
                      end
            end,
       book1, tr).
Proof.
  cbv zeta. unfold main.
  rewrite (bind_returned _ _ _ _ _ _ (sidebar_runs inp book)).
  set (p := sidebar_profile inp).
  destruct (tab1_outcome predict_calories now p inp book) as [tr1 E1].
  revert E1.
  set (book1 := match (if calculate_clicked inp
                       then tab1_prediction predict_calories p inp
                       else None) with
                | Some calories =>
                    book ++ [ {| LogBook.timestamp := now;
                                 LogBook.data := tab1_entry p inp calories |} ]
                | None => book
                end).
  intro E1.
  assert (Hrest : forall r1,
    tab1 predict_calories now p inp book = (Some r1, book1, tr1) ->
    exists tr,
      (tab1 predict_calories now p inp ;;;
       tab2 analyze_performance now p inp ;;;
       tab3 p ;;; tab4 ;;; tab5 months_needed p inp ;;; quick_stats now) book
      = (match LogBook.get_logs (days_filter inp) now book1 with
         | [] => Some tt
         | logs => match analyze_performance logs p with
                   | Some _ => Some tt
                   | None => None
                   end
         end, book1, tr)).
  { intros r1 Hr1.
    rewrite (bind_returned _ _ _ _ _ _ Hr1).
    destruct (tab2_outcome p inp book1) as [tr2 E2].
    destruct (match LogBook.get_logs (days_filter inp) now book1 with
              | [] => Some tt
              | logs => match analyze_performance logs p with
                        | Some _ => Some tt
                        | None => None
                        end
              end) as [[]|].
    - rewrite (bind_returned _ _ _ _ _ _ E2).
      destruct (rest_outcome p inp book1) as [tr3 ->].
      eexists. reflexivity.
    - rewrite (bind_raised _ _ _ _ _ E2). eexists. reflexivity. }
  destruct (calculate_clicked inp).
  - destruct (tab1_prediction predict_calories p inp) as [calories|].
    + destruct (Hrest tt E1) as [tr ->]. eexists. reflexivity.
    + rewrite (bind_raised _ _ _ _ _ E1). eexists. reflexivity.
  - destruct (Hrest tt E1) as [tr ->]. eexists. reflexivity.
Qed.

End RunFacts.

(** X11: a run of the script adds at most one entry to the book, and
    adds one exactly when the button of tab 1 is pressed and the
    predictor answers: the entry of that estimate, stamped with the
    clock, behind all the entries the book had.  Nothing after tab 1
    writes to the book, whether the run ends normally or not. *)
Theorem run_logs_one_prediction
    (predict_calories : string -> Z -> Z -> Z -> Z -> Z -> Q -> string -> option Q)
    (analyze_performance : list LogBook.entry -> Profile.t -> option analysis)
    (months_needed : Q -> Q -> Z -> Z -> nat) (now : Z)
    (inp : inputs) (book : LogBook.t) :
  let p := sidebar_profile inp in
  let run := main predict_calories analyze_performance months_needed now inp book in
  book_of run
  = match (if calculate_clicked inp
           then tab1_prediction predict_calories p inp else None) with
    | Some calories =>
        book ++ [ {| LogBook.timestamp := now;
                     LogBook.data := tab1_entry p inp calories |} ]
    | None => book
    end
  /\ (book_of run = book \/ exists e, book_of run = book ++ [e]).
Proof.
  cbv zeta.
  destruct (main_outcome predict_calories analyze_performance months_needed
              now inp book) as [tr E].
  cbv zeta in E. rewrite E. unfold book_of. cbn [fst snd].
  split; [reflexivity|].
  destruct (if calculate_clicked inp
            then tab1_prediction predict_calories (sidebar_profile inp) inp
            else None) as [calories|].
  - right. eexists. reflexivity.
  - left. reflexivity.
Qed.

(** X13: the table of the recent activity holds the last rows of the
    window in their order: all of them when there are at most 10, the
    last 10 otherwise. *)
Theorem recent_activity_rows {A : Type} (n : nat) (rows : list A) :
  (exists earlier, rows = earlier ++ tail n rows)
  /\ List.length (tail n rows) = Nat.min n (List.length rows)
  /\ ((List.length rows <= n)%nat -> tail n rows = rows).
Proof.
  unfold tail. split; [|split].
  - exists (firstn (List.length rows - n) rows).
    symmetry. apply firstn_skipn.
  - rewrite length_skipn. lia.
  - intro H. replace (List.length rows - n)%nat with 0%nat by lia.
    reflexivity.
Qed.

(** ** Heart-rate zones *)

Example zone_lines_at_30 :
  HeartRate.zone_lines 30
  = [ ("Warm-up"%string, Some 95%Z, Some 114%Z);
      ("Fat Burn"%string, Some 114%Z, Some 133%Z);
      ("Cardio"%string, Some 133%Z, Some 152%Z);
      ("Peak"%string, Some 152%Z, Some 171%Z);
      ("Max"%string, Some 171%Z, Some 190%Z) ].
Proof. vm_compute. reflexivity. Qed.

(** At 50 the maximum is 170 and seven tenths of it are 119 beats; the
    float product falls below 119 and is cut to 118. *)
Example fat_burn_at_50 :
  nth_error (HeartRate.zone_lines 50) 1
  = Some ("Fat Burn"%string, Some 102%Z, Some 118%Z)
  /\ HeartRate.exact_bound 50 7 = 119%Z.
Proof. split; vm_compute; reflexivity. Qed.

(** The lines of the zones at every age of the sidebar, age by age. *)
Lemma zone_lines_by_age (age : Z) :
  (10 <= age <= 100)%Z ->
  HeartRate.zone_lines age
  = [ ("Warm-up"%string, Some (HeartRate.shown_bound age 5),
                          Some (HeartRate.shown_bound age 6));
      ("Fat Burn"%string, Some (HeartRate.shown_bound age 6),
                          Some (HeartRate.shown_bound age 7));
      ("Cardio"%string, Some (HeartRate.shown_bound age 7),
                        Some (HeartRate.shown_bound age 8));
      ("Peak"%string, Some (HeartRate.shown_bound age 8),
                      Some (HeartRate.shown_bound age 9));
      ("Max"%string, Some (HeartRate.shown_bound age 9),
                     Some (HeartRate.max_hr age)) ].
Proof.
  intro H.
  assert (Hn : exists n, (n < 91)%nat /\ age = (10 + Z.of_nat n)%Z)
    by (exists (Z.to_nat (age - 10)); lia).
  destruct Hn as (n & Hn & ->). clear H.
  do 91 (destruct n as [|n]; [vm_compute; reflexivity|]).
  lia.
Qed.

(** X14: at every age the sidebar can hold, the five heart-rate zones
    are defined and follow each other without a gap, from half of the
    maximum 220 - age up to the maximum itself; each bound is the whole
    number of beats in that many tenths of the maximum, except that the
    bound at seven tenths is one beat lower at the ages of 40 and 50
    (125 and 118 instead of 126 and 119), where the float product falls
    just below the whole number. *)
Theorem heart_rate_zones (raw : option Z) :
  let age := St.number_input 10 100 30 raw in
  let b := HeartRate.shown_bound age in
  HeartRate.zone_lines age
  = [ ("Warm-up"%string, Some (b 5%Z), Some (b 6%Z));
      ("Fat Burn"%string, Some (b 6%Z), Some (b 7%Z));
      ("Cardio"%string, Some (b 7%Z), Some (b 8%Z));
      ("Peak"%string, Some (b 8%Z), Some (b 9%Z));
      ("Max"%string, Some (b 9%Z), Some (HeartRate.max_hr age)) ]
  /\ (b 5 <= b 6 <= b 7)%Z /\ (b 7 <= b 8 <= b 9)%Z
  /\ (b 9 <= HeartRate.max_hr age)%Z
  /\ (forall tenths, (5 <= tenths <= 9)%Z ->
        (HeartRate.exact_bound age tenths - 1 <= b tenths
         <= HeartRate.exact_bound age tenths)%Z
        /\ (b tenths <> HeartRate.exact_bound age tenths ->
            tenths = 7%Z /\ (age = 40%Z \/ age = 50%Z))).
Proof.
  cbv zeta.
  pose proof (number_input_range 10 100 30 raw ltac:(lia)) as Ha.
  set (age := St.number_input 10 100 30 raw) in *.
  split; [now apply zone_lines_by_age|].
  assert (Hb : forall tenths,
    (5 <= tenths <= 9)%Z ->
    (HeartRate.exact_bound age tenths - 1 <= HeartRate.shown_bound age tenths
     <= HeartRate.exact_bound age tenths)%Z
    /\ (HeartRate.shown_bound age tenths <> HeartRate.exact_bound age tenths ->
        tenths = 7%Z /\ (age = 40%Z \/ age = 50%Z))).
  { intros tenths Ht. unfold HeartRate.shown_bound.
    destruct (tenths =? 7)%Z eqn:E7; simpl andb.
    - destruct ((age =? 40) || (age =? 50))%Z eqn:Ea.
      + split; [lia|]. intros _. split; [lia|].
        apply orb_true_iff in Ea. destruct Ea as [Ea | Ea]; lia.
      + split; [lia|]. intro Hne. now elim Hne.
    - split; [lia|]. intro Hne. now elim Hne. }
  assert (Hmono : forall j k, (5 <= j)%Z -> (j < k)%Z -> (k <= 9)%Z ->
    (HeartRate.shown_bound age j <= HeartRate.shown_bound age k)%Z).
  { intros j k Hj Hjk Hk.
    assert (Hstep : (HeartRate.exact_bound age j + 12
                     <= HeartRate.exact_bound age k)%Z).
    { unfold HeartRate.exact_bound, HeartRate.max_hr.
      assert (Hk' : ((220 - age) * j + 120 <= (220 - age) * k)%Z) by nia.
      pose proof (Z.div_le_mono _ _ 10 ltac:(lia) Hk') as Hd.
      replace ((220 - age) * j + 120)%Z
        with ((220 - age) * j + 12 * 10)%Z in Hd by lia.
      rewrite Z.div_add in Hd by lia. exact Hd. }
    destruct (Hb j ltac:(lia)) as [[? ?] _].
    destruct (Hb k ltac:(lia)) as [[? ?] _]. lia. }
  split; [split; apply Hmono; lia|].
  split; [split; apply Hmono; lia|].
  split; [|exact Hb].
  destruct (Hb 9%Z ltac:(lia)) as [[_ H9] _].
  assert (HeartRate.exact_bound age 9 <= HeartRate.max_hr age)%Z.
  { unfold HeartRate.exact_bound, HeartRate.max_hr.
    apply Z.div_le_upper_bound; lia. }
  lia.
Qed.

(** ** Instances *)

Lemma tab1_logs_the_prediction_witness :
  book_of (tab1 (fun _ _ _ _ _ _ _ _ => Some 250) 1700000 sample_profile
             pressed [])
  = [ {| LogBook.timestamp := 1700000;
         LogBook.data := tab1_entry sample_profile pressed 250 |} ].
Proof.
  rewrite (tab1_logs_the_prediction (fun _ _ _ _ _ _ _ _ => Some 250) 1700000
             sample_profile pressed [] 250 eq_refl eq_refl).
  reflexivity.
Defined.

Lemma tab1_logs_nothing_otherwise_witness :
  tab1 (fun _ _ _ _ _ _ _ _ => Some 250) 1700000 sample_profile untouched
    sample_book
  = (Some tt, sample_book, [Info "Your Stats"]).
Proof.
  apply (proj1 (tab1_logs_nothing_otherwise (fun _ _ _ _ _ _ _ _ => Some 250)
                  1700000 sample_profile untouched sample_book)).
  reflexivity.
Defined.

Lemma tab2_with_logs_witness :
  result (tab2 (fun _ _ => Some {| trends := ["Up"%string]; insights := [];
                                   recommendations := ["Rest"%string] |})
            1700000 sample_profile untouched sample_book)
  = Some tt.
Proof.
  pose proof (tab2_with_logs
                (fun _ _ => Some {| trends := ["Up"%string]; insights := [];
                                    recommendations := ["Rest"%string] |})
                1700000 sample_profile untouched sample_book
                {| trends := ["Up"%string]; insights := [];
                   recommendations := ["Rest"%string] |}) as H.
  cbv zeta in H. rewrite H.
  - reflexivity.
  - vm_compute. discriminate.
  - reflexivity.
Defined.

Lemma tab2_when_analysis_fails_witness :
  result (tab2 (fun _ _ => None) 1700000 sample_profile untouched sample_book)
  = None.
Proof.
  pose proof (tab2_when_analysis_fails (fun _ _ => None) 1700000
                sample_profile untouched sample_book) as H.
  cbv zeta in H. rewrite H.
  - reflexivity.
  - vm_compute. discriminate.
  - reflexivity.
Defined.

Lemma recent_activity_rows_witness : tail 10 sample_book = sample_book.
Proof.
  apply (proj2 (proj2 (recent_activity_rows 10 sample_book))).
  simpl. lia.
Defined.

Lemma heart_rate_zones_witness :
  (HeartRate.exact_bound 50 7 - 1 <= HeartRate.shown_bound 50 7
   <= HeartRate.exact_bound 50 7)%Z.
Proof.
  apply (proj2 (proj2 (proj2 (proj2 (heart_rate_zones (Some 50%Z))))) 7%Z).
  lia.
Defined.

(** ** The page on binary64 floats *)

Lemma Zrange_In (lo : Z) (n : nat) (z : Z) :
  (lo <= z < lo + Z.of_nat n)%Z -> In z (Zrange lo n).
Proof.
  revert lo. induction n as [|n IH]; intros lo H; [lia|].
  simpl. destruct (Z.eq_dec lo z) as [E | E]; [now left|].
  right. apply IH. lia.
Qed.

Lemma all1_spec (check : Z -> bool) (lo : Z) (n : nat) :
  forallb check (Zrange lo n) = true ->
  forall z, (lo <= z < lo + Z.of_nat n)%Z -> check z = true.
Proof.
  intros H z Hz.
  apply (proj1 (forallb_forall check (Zrange lo n)) H).
  now apply Zrange_In.
Qed.

Lemma all2_spec (check : Z -> Z -> bool) (lo1 : Z) (n1 : nat)
    (lo2 : Z) (n2 : nat) :
  all2 check lo1 n1 lo2 n2 = true ->
  forall x y, (lo1 <= x < lo1 + Z.of_nat n1)%Z ->
              (lo2 <= y < lo2 + Z.of_nat n2)%Z -> check x y = true.
Proof.
  unfold all2. cbv zeta. intros H x y Hx Hy.
  pose proof (all1_spec _ _ _ H x Hx) as Hrow. cbv beta in Hrow.
  exact (all1_spec _ _ _ Hrow y Hy).
Qed.

Lemma within_spec (f : PrimFloat.float) (q tol : Q) :
  within f q tol = true ->
  exists x, OnFloats.to_Q f = Some x /\ Qabs (x - q) <= tol.
Proof.
  unfold within. destruct (OnFloats.to_Q f) as [x|]; [|discriminate].
  intro H. exists x. split; [reflexivity|]. now apply Qle_bool_iff.
Qed.

(** The side condition of a range: its length is a number. *)
Ltac in_range :=
  repeat match goal with
         | |- context [Z.of_nat ?n] =>
             let v := eval vm_compute in (Z.of_nat n) in
             change (Z.of_nat n) with v
         end;
  lia.



Lemma sum_exact_everywhere :
  all2 OnFloats.sum_is_exact 30 171 100 151 = true.
Proof. vm_compute. reflexivity. Qed.

Lemma difference_exact_everywhere :
  all2 OnFloats.difference_is_exact 740 2111 10 91 = true.
Proof. vm_compute. reflexivity. Qed.

Lemma constant_exact_everywhere :
  forallb OnFloats.constant_is_exact (Zrange 340 2471) = true.
Proof. vm_compute. reflexivity. Qed.

Lemma quarters_exact_everywhere :
  forallb quarters_are_exact (Zrange 1056 (Z.to_nat 13015)) = true.
Proof. vm_compute. reflexivity. Qed.

Lemma progress_bar_sound_everywhere :
  all2 progress_bar_is_sound 1 360 1 360 = true.
Proof. vm_compute. reflexivity. Qed.




(** A float that the Leibniz test equates is the same float. *)
Lemma leibniz_eq (x y : PrimFloat.float) :
  PrimFloat.Leibniz.eqb x y = true -> x = y.
Proof. apply FloatAxioms.Leibniz.eqb_spec. Qed.

(** The float BMR of a profile of the sidebar is the float of its
    quarters: none of its three additions is rounded. *)
Lemma bmr_in_quarters (gender : string) (weight height age : Z) :
  (30 <= weight <= 200)%Z -> (100 <= height <= 250)%Z ->
  (10 <= age <= 100)%Z ->
  OnFloats.bmr gender weight height age
  = OnFloats.quarters
      (40 * weight + 25 * height - 20 * age
       + (if String.eqb gender "Male" then 20 else - 644)).
Proof.
  intros Hw Hh Ha.
  pose proof (all2_spec _ _ _ _ _ sum_exact_everywhere weight height
                ltac:(in_range) ltac:(in_range)) as HA.
  pose proof (all2_spec _ _ _ _ _ difference_exact_everywhere
                (8 * weight + 5 * height)%Z age
                ltac:(in_range) ltac:(in_range)) as HB.
  pose proof (all1_spec _ _ _ constant_exact_everywhere
                (8 * weight + 5 * height - 4 * age)%Z
                ltac:(in_range)) as HC.
  apply leibniz_eq in HA, HB.
  unfold OnFloats.constant_is_exact in HC.
  apply andb_prop in HC. destruct HC as [HC1 HC2].
  apply leibniz_eq in HC1, HC2.
  replace (5 * (8 * weight + 5 * height))%Z
    with (40 * weight + 25 * height)%Z in HB by lia.
  replace (5 * (8 * weight + 5 * height - 4 * age))%Z
    with (40 * weight + 25 * height - 20 * age)%Z in HC1, HC2 by lia.
  unfold OnFloats.bmr.
  destruct (String.eqb gender "Male"); rewrite HA, HB.
  - exact HC1.
  - rewrite HC2. reflexivity.
Qed.

(** The rational BMR, in quarters. *)
Lemma exact_bmr_in_quarters (gender : string) (weight height age : Z) :
  inject_Z (40 * weight + 25 * height - 20 * age
            + (if String.eqb gender "Male" then 20 else - 644)) / 4
  == bmr gender weight height age.
Proof.
  unfold bmr.
  destruct (String.eqb gender "Male");
    unfold Z.sub;
    repeat (rewrite inject_Z_plus || rewrite inject_Z_opp
            || rewrite inject_Z_mult);
    change (inject_Z 40) with 40; change (inject_Z 25) with 25;
    change (inject_Z 20) with 20; change (inject_Z 10) with 10;
    change (inject_Z 5) with 5; change (inject_Z (- 644)) with (- (644));
    field.
Qed.

(** X2: on the floats of the page, the BMR of every profile of the
    sidebar is computed without any rounding: its exact value is
    10*weight + 6.25*height - 5*age + 5 for Male and the same - 161 for
    Female, between 264 and 3517.5 kcal/day.  The goal of the third
    column is never below the float of 264 * 1.55 - 500, which lies just
    under -90.8, and that negative goal is what the page shows, as a
    Weight Loss Goal, to a woman of 100 years, 30 kg and 100 cm. *)
Theorem bmr_on_floats (inp : inputs) :
  let p := sidebar_profile inp in
  let exact := bmr (Profile.gender p) (Profile.weight p) (Profile.height p)
                 (Profile.age p) in
  let b := OnFloats.bmr (Profile.gender p) (Profile.weight p)
             (Profile.height p) (Profile.age p) in
  (exists x, OnFloats.to_Q b = Some x /\ x == exact)
  /\ 264 <= exact <= 3517.5
  /\ (forall bmi,
        PrimFloat.leb OnFloats.lowest_goal (snd (OnFloats.weight_goal bmi b))
        = true)
  /\ (exists low, OnFloats.to_Q OnFloats.lowest_goal = Some low
                  /\ - (90.81) < low < - (90.8))
  /\ exists inp' bmi',
       let p' := sidebar_profile inp' in
       OnFloats.bmi (Profile.weight p') (Profile.height p') = Some bmi'
       /\ OnFloats.weight_goal bmi'
            (OnFloats.bmr (Profile.gender p') (Profile.weight p')
               (Profile.height p') (Profile.age p'))
          = ("Weight Loss Goal"%string, OnFloats.lowest_goal).
Proof.
  cbv zeta.
  destruct (sidebar_profile_in_range_aux inp) as (Ha & Hh & Hw).
  set (p := sidebar_profile inp) in *.
  set (k := (40 * Profile.weight p + 25 * Profile.height p
             - 20 * Profile.age p
             + (if String.eqb (Profile.gender p) "Male" then 20 else - 644))%Z).
  assert (Hk : (1056 <= k < 1056 + Z.of_nat (Z.to_nat 13015))%Z)
    by (subst k; destruct (String.eqb (Profile.gender p) "Male"); in_range).
  pose proof (all1_spec _ _ _ quarters_exact_everywhere k Hk) as Hq.
  unfold quarters_are_exact in Hq.
  apply andb_prop in Hq. destruct Hq as [Hq Hg].
  rewrite (bmr_in_quarters _ _ _ _ Hw Hh Ha). fold k.
  assert (Hexact : 264 <= bmr (Profile.gender p) (Profile.weight p)
                            (Profile.height p) (Profile.age p) <= 3517.5).
  { apply (inject_Z_between 10 100) in Ha.
    apply (inject_Z_between 100 250) in Hh.
    apply (inject_Z_between 30 200) in Hw.
    change (inject_Z 10) with 10 in Ha.
    change (inject_Z 100) with 100 in Ha, Hh.
    change (inject_Z 250) with 250 in Hh. change (inject_Z 30) with 30 in Hw.
    change (inject_Z 200) with 200 in Hw.
    unfold bmr.
    destruct (String.eqb _ _); rewrite !inject_Z_mult;
      change (inject_Z 10) with 10; change (inject_Z 5) with 5; split; lra. }
  split; [|split; [exact Hexact|split; [|split]]].
  - destruct (within_spec _ _ _ Hq) as (x & Hx & Hclose).
    exists x. split; [exact Hx|].
    rewrite <- (exact_bmr_in_quarters (Profile.gender p)). fold k.
    apply Qabs_Qle_condition in Hclose. destruct Hclose as [H1 H2].
    apply Qle_antisym; lra.
  - intro bmi. unfold OnFloats.goals_above_lowest in Hg.
    apply andb_prop in Hg. destruct Hg as [Hloss Hgain].
    unfold OnFloats.weight_goal.
    destruct (PrimFloat.ltb _ bmi); cbn [snd]; assumption.
  - eexists. split; [vm_compute; reflexivity|].
    split; reflexivity.
  - exists {| gender_raw := Some 1%nat; age_raw := Some 100%Z;
              height_raw := Some 100%Z; weight_raw := Some 30%Z;
              exercise_type_raw := None; duration_raw := None;
              heart_rate_raw := None; body_temp_raw := None;
              calculate_clicked := false; days_filter_raw := None;
              target_bmi_raw := None; generate_plan_clicked := false |}.
    eexists. cbv zeta. split; vm_compute; reflexivity.
Qed.

(** X6: on the floats of the page, for a plan of up to 360 months and a
    month numbered from 1 to the length of the plan, the progress is
    defined and the value handed to [st.progress] is above 0 and at most
    1, as Streamlit requires; it is within 2^-52 of month/length, and
    exactly 1.0 in the last month. *)
Theorem progress_bar_in_range (month : nat)
    (monthly_plan : list NutritionAdvisor.plan_step) :
  (1 <= month <= List.length monthly_plan)%nat ->
  (List.length monthly_plan <= 360)%nat ->
  exists bar x,
    OnFloats.progress_bar month monthly_plan = Some bar
    /\ PrimFloat.ltb (Float64.of_int 0) bar = true
    /\ PrimFloat.leb bar (Float64.of_int 1) = true
    /\ OnFloats.to_Q bar = Some x
    /\ Qabs (x - inject_Z (Z.of_nat month)
                 / inject_Z (Z.of_nat (List.length monthly_plan)))
       <= 1 # 2 ^ 52
    /\ (month = List.length monthly_plan ->
        PrimFloat.eqb bar (Float64.of_int 1) = true).
Proof.
  intros Hm Hn.
  pose proof (all2_spec _ _ _ _ _ progress_bar_sound_everywhere
                (Z.of_nat (List.length monthly_plan)) (Z.of_nat month)
                ltac:(change (Z.of_nat 360) with 360%Z; lia)
                ltac:(change (Z.of_nat 360) with 360%Z; lia)) as H.
  unfold progress_bar_is_sound in H.
  replace (Z.of_nat month <=? Z.of_nat (List.length monthly_plan))%Z
    with true in H by (symmetry; apply Z.leb_le; lia).
  unfold OnFloats.progress_bar.
  destruct (OnFloats.bar_of _ _) as [bar|]; [|discriminate].
  apply andb_prop in H. destruct H as [H Hlast].
  apply andb_prop in H. destruct H as [H Hclose].
  apply andb_prop in H. destruct H as [Hpos Hle].
  destruct (within_spec _ _ _ Hclose) as (x & Hx & Hx').
  exists bar, x. repeat split; try assumption.
  intros ->. rewrite Z.eqb_refl in Hlast. exact Hlast.
Qed.

Lemma progress_bar_in_range_witness :
  exists bar x,
    OnFloats.progress_bar 1
      (NutritionAdvisor.get_monthly_suggestions (fun _ _ _ _ => 3%nat)
         (8000 # 289) 22 80 170) = Some bar
    /\ PrimFloat.ltb (Float64.of_int 0) bar = true
    /\ PrimFloat.leb bar (Float64.of_int 1) = true
    /\ OnFloats.to_Q bar = Some x
    /\ Qabs (x - inject_Z 1 / inject_Z 3) <= 1 # 2 ^ 52
    /\ (1%nat = 3%nat -> PrimFloat.eqb bar (Float64.of_int 1) = true).
Proof.
  apply (progress_bar_in_range 1
           (NutritionAdvisor.get_monthly_suggestions (fun _ _ _ _ => 3%nat)
              (8000 # 289) 22 80 170)); simpl; lia.
Defined.

(** The bar of the first of three months is not a third: the product by
    100 and the quotient by 100 do not cancel on floats. *)
Example first_of_three_months :
  exists bar third,
    OnFloats.bar_of 1 3 = Some bar
    /\ OnFloats.truediv (Float64.of_int 1) (Float64.of_int 3) = Some third
    /\ PrimFloat.ltb bar third = true.
Proof. eexists. eexists. repeat split; vm_compute; reflexivity. Qed.

(** With an empty plan the loop of tab 5 has no month to show; outside
    of it the progress would divide by zero. *)
Example progress_of_an_empty_plan : OnFloats.progress 1 [] = None.
Proof. vm_compute. reflexivity. Qed.
